(** * Payment gateway orchestration: selector, circuit breaker, retry and
      transaction service

    A shallow embedding of the Go packages [gateway], [utils], [services] and
    [db] (the in-memory store), followed by the properties proved about them.

    Conventions.
    - A Go [int] is a 64-bit two's-complement integer, held in [Z]; the only
      arithmetic the code performs on one ([nextTxID++]) has its wrap-around
      written out.  [time.Time] and [time.Duration] are [Z] (nanoseconds).
    - A Go [error] value is an [option error]: [None] is [nil].  A function
      returning [(T, error)] with exactly one of the two meaningful returns a
      [result T].
    - A Go [map] is a [gmap]; reading an absent key gives the zero value, as
      the code relies on ([healthStatus]).
    - Everything outside the process (the providers, the clock, the random
      source) lives in one external state of type [Ext] that provider
      operations transform and that [time.Now] reads. *)

From Stdlib Require Import ZArith Ascii String Permutation Sorted.
From stdpp Require Import base option gmap strings list sorting pretty.

Local Open Scope Z_scope.

(** ** Errors *)

Inductive error : Type :=
| ErrNoAvailableGateway            (* gateway.ErrNoAvailableGateway *)
| ErrNoRows                        (* sql.ErrNoRows *)
| ErrOpenState                     (* gobreaker.ErrOpenState *)
| ErrTooManyRequests               (* gobreaker.ErrTooManyRequests *)
| ErrSyntax                        (* strconv.ErrSyntax, inside a NumError *)
| ErrRange                         (* strconv.ErrRange, inside a NumError *)
| errors_New (msg : string)        (* errors.New(msg) *)
| fmt_Errorf (prefix : string) (wrapped : error)
                                   (* fmt.Errorf(prefix + ": %w", wrapped) *)
| fmt_Errorf_nil (prefix : string).
                                   (* the same call with a nil [wrapped] *)

Inductive result (A : Type) : Type :=
| Ok (a : A)
| Err (e : error).
Arguments Ok {A} a.
Arguments Err {A} e.

(** [err.Error()]: the message of an error value. *)
Fixpoint Error (e : error) : string :=
  match e with
  | ErrNoAvailableGateway => "no available gateway found"
  | ErrNoRows => "sql: no rows in result set"
  | ErrOpenState => "circuit breaker is open"
  | ErrTooManyRequests => "too many requests"
  | ErrSyntax => "invalid syntax"
  | ErrRange => "value out of range"
  | errors_New msg => msg
  | fmt_Errorf prefix e' => prefix +:+ ": " +:+ Error e'
  | fmt_Errorf_nil prefix => prefix +:+ ": %!w(<nil>)"
  end.

(** [fmt.Errorf(prefix + ": %w", err)] for an [err] that may be [nil]. *)
Definition Errorf (prefix : string) (err : option error) : error :=
  match err with
  | Some e => fmt_Errorf prefix e
  | None => fmt_Errorf_nil prefix
  end.

(** The chain [e, Unwrap(e), Unwrap(Unwrap(e)), ...]. *)
Fixpoint unwrap_chain (e : error) : list error :=
  e :: match e with
       | fmt_Errorf _ e' => unwrap_chain e'
       | _ => []
       end.

(** [errors.Is(e, target)] for the comparable sentinel errors used here. *)
Definition errors_Is (e target : error) : Prop := target ∈ unwrap_chain e.

(** ** Integers and their decimal form *)

Definition wrap_int (z : Z) : Z := (z + 2 ^ 63) `mod` 2 ^ 64 - 2 ^ 63.
Definition wrap_uint32 (z : Z) : Z := z `mod` 2 ^ 32.
Definition wrap_uint64 (z : Z) : Z := z `mod` 2 ^ 64.

(** [fmt.Sprintf("%d", n)] and [strconv.Itoa]. *)
Definition Sprintf_d (n : Z) : string := pretty n.

Definition is_digit (c : ascii) : bool :=
  let n := N_of_ascii c in ((48 <=? n) && (n <=? 57))%N.

Definition digit_value (c : ascii) : Z := Z.of_N (N_of_ascii c) - 48.

Fixpoint all_digits (s : string) : bool :=
  match s with
  | EmptyString => true
  | String c s' => is_digit c && all_digits s'
  end.

Fixpoint digits_value (acc : Z) (s : string) : Z :=
  match s with
  | EmptyString => acc
  | String c s' => digits_value (acc * 10 + digit_value c) s'
  end.

(** Splits an optional leading sign off: [(negative, rest)]. *)
Definition split_sign (s : string) : bool * string :=
  match s with
  | String c s' =>
      if Ascii.eqb c "-" then (true, s')
      else if Ascii.eqb c "+" then (false, s')
      else (false, s)
  | EmptyString => (false, s)
  end.

(** [strconv.Atoi]: an optional sign followed by one or more decimal digits.
    A syntax error yields [0]; a value outside [int] yields the nearest bound
    together with a range error. *)
Definition Atoi (s : string) : Z * option error :=
  let '(neg, body) := split_sign s in
  match body with
  | EmptyString => (0, Some ErrSyntax)
  | _ =>
      if all_digits body then
        let un := digits_value 0 body in
        if negb neg && (2 ^ 63 <=? un) then (2 ^ 63 - 1, Some ErrRange)
        else if neg && (2 ^ 63 <? un) then (- 2 ^ 63, Some ErrRange)
        else (if neg then - un else un, None)
      else (0, Some ErrSyntax)
  end.


(** ** package models *)

Definition Time := Z.
Definition float64 := Z.   (* the IEEE-754 bit pattern; never computed on *)

Record User := {
  u_ID : Z;
  u_Username : string;
  u_Email : string;
  u_CountryID : Z;
  u_CreatedAt : Time;
  u_UpdatedAt : Time }.

Record GatewayPriority := {
  gw_GatewayID : Z;
  gw_Name : string;
  gw_Priority : Z;
  gw_Format : string }.

Record Transaction := {
  tx_ID : Z;
  tx_Amount : float64;
  tx_Currency : string;
  tx_Type : string;
  tx_Status : string;
  tx_UserID : Z;
  tx_GatewayID : Z;
  tx_CountryID : Z;
  tx_ReferenceID : string;
  tx_ErrorMessage : string;
  tx_CreatedAt : Time;
  tx_UpdatedAt : Time }.

Record TransactionRequest := {
  req_UserID : Z;
  req_Amount : float64;
  req_Currency : string }.

Record TransactionResponse := {
  resp_Status : string;
  resp_TransactionID : Z;
  resp_Message : string;
  resp_RedirectURL : string }.

Record CallbackData := {
  cb_TransactionID : Z;
  cb_Status : string;
  cb_Message : string;
  cb_ReferenceID : string;
  cb_GatewayID : string;
  cb_Timestamp : string }.

Definition set_tx_ID (t : Transaction) (id : Z) : Transaction :=
  {| tx_ID := id; tx_Amount := tx_Amount t; tx_Currency := tx_Currency t;
     tx_Type := tx_Type t; tx_Status := tx_Status t; tx_UserID := tx_UserID t;
     tx_GatewayID := tx_GatewayID t; tx_CountryID := tx_CountryID t;
     tx_ReferenceID := tx_ReferenceID t; tx_ErrorMessage := tx_ErrorMessage t;
     tx_CreatedAt := tx_CreatedAt t; tx_UpdatedAt := tx_UpdatedAt t |}.

Definition set_tx_CreatedAt (t : Transaction) (at_ : Time) : Transaction :=
  {| tx_ID := tx_ID t; tx_Amount := tx_Amount t; tx_Currency := tx_Currency t;
     tx_Type := tx_Type t; tx_Status := tx_Status t; tx_UserID := tx_UserID t;
     tx_GatewayID := tx_GatewayID t; tx_CountryID := tx_CountryID t;
     tx_ReferenceID := tx_ReferenceID t; tx_ErrorMessage := tx_ErrorMessage t;
     tx_CreatedAt := at_; tx_UpdatedAt := tx_UpdatedAt t |}.

Definition set_tx_status (t : Transaction) (status errorMsg : string)
    (at_ : Time) : Transaction :=
  {| tx_ID := tx_ID t; tx_Amount := tx_Amount t; tx_Currency := tx_Currency t;
     tx_Type := tx_Type t; tx_Status := status; tx_UserID := tx_UserID t;
     tx_GatewayID := tx_GatewayID t; tx_CountryID := tx_CountryID t;
     tx_ReferenceID := tx_ReferenceID t; tx_ErrorMessage := errorMsg;
     tx_CreatedAt := tx_CreatedAt t; tx_UpdatedAt := at_ |}.

Definition set_tx_reference (t : Transaction) (referenceID : string)
    (at_ : Time) : Transaction :=
  {| tx_ID := tx_ID t; tx_Amount := tx_Amount t; tx_Currency := tx_Currency t;
     tx_Type := tx_Type t; tx_Status := tx_Status t; tx_UserID := tx_UserID t;
     tx_GatewayID := tx_GatewayID t; tx_CountryID := tx_CountryID t;
     tx_ReferenceID := referenceID; tx_ErrorMessage := tx_ErrorMessage t;
     tx_CreatedAt := tx_CreatedAt t; tx_UpdatedAt := at_ |}.

(** ** package consts *)

Module consts.
(** Modelled from the spec: [internal/consts/consts.go] is not among the
    sources.  The spec names the transaction kinds [deposit] and [withdrawal]
    and the statuses [pending], [processing], [completed] and [failed]; the
    code assigns and compares these constants as plain strings. *)
Definition Deposit : string := "deposit".
Definition Withdrawal : string := "withdrawal".
Definition Pending : string := "pending".
Definition Processing : string := "processing".
Definition Completed : string := "completed".
End consts.

(** ** package db *)

(** [db.DBInterface].  A method that reads the clock itself in the in-memory
    implementation takes that reading as its [Time] argument. *)
Class DBInterface (D : Type) := {
  GetUserByID : D → Z → result User;
  GetGatewaysByPriority : D → Z → result (list GatewayPriority);
  CreateTransaction : D → Time → Transaction → result Z * D;
  GetTransactionByID : D → Z → result Transaction;
  UpdateTransactionStatus : D → Time → Z → string → string → option error * D;
  UpdateTransactionReference : D → Time → Z → string → option error * D }.

Module MockDB.
(** [db.MockDB], the in-memory store.  Its [gateways] table only serves
    [GetSupportedGatewaysByCountry], which together with [Ping] and [Close]
    plays no part in selection or in the transaction service and is left
    out, here and in the interface above. *)

Record t := {
  users : gmap Z User;
  gatewaysByCountry : gmap Z (list GatewayPriority);
  transactions : gmap Z Transaction;
  nextTxID : Z }.

Definition with_transactions (m : t) (txs : gmap Z Transaction) (next : Z) : t :=
  {| users := users m; gatewaysByCountry := gatewaysByCountry m;
     transactions := txs; nextTxID := next |}.

Definition sample_user (id : Z) (name email : string) (country : Z)
    (now : Time) : User :=
  {| u_ID := id; u_Username := name; u_Email := email; u_CountryID := country;
     u_CreatedAt := now; u_UpdatedAt := 0 |}.

Definition prio (id : Z) (name : string) (p : Z) (format : string)
    : GatewayPriority :=
  {| gw_GatewayID := id; gw_Name := name; gw_Priority := p; gw_Format := format |}.

(** [NewMockDB] with [seedSampleData]. *)
Definition NewMockDB (now : Time) : t :=
  {| users :=
       <[1 := sample_user 1 "user1" "user1@example.com" 1 now]>
       (<[2 := sample_user 2 "user2" "user2@example.com" 2 now]>
       (<[3 := sample_user 3 "user3" "user3@example.com" 3 now]> ∅));
     gatewaysByCountry :=
       <[1 := [prio 1 "PayPal" 1 "application/json";
               prio 2 "Stripe" 2 "application/json";
               prio 3 "Adyen" 3 "application/xml"]]>
       (<[2 := [prio 2 "Stripe" 1 "application/json";
                prio 1 "PayPal" 2 "application/json";
                prio 3 "Adyen" 3 "application/xml"]]>
       (<[3 := [prio 3 "Adyen" 1 "application/xml";
                prio 2 "Stripe" 2 "application/json";
                prio 1 "PayPal" 3 "application/json"]]> ∅));
     transactions := ∅;
     nextTxID := 1 |}.

Definition GetUserByID (m : t) (userID : Z) : result User :=
  match users m !! userID with
  | None => Err ErrNoRows
  | Some user => Ok user
  end.

Definition GetGatewaysByPriority (m : t) (countryID : Z)
    : result (list GatewayPriority) :=
  match gatewaysByCountry m !! countryID with
  | None => Ok []
  | Some priorities => Ok priorities
  end.

Definition CreateTransaction (m : t) (now : Time) (transaction : Transaction)
    : result Z * t :=
  let id := nextTxID m in
  let transaction := set_tx_ID transaction id in
  let transaction :=
    if tx_CreatedAt transaction =? 0 then set_tx_CreatedAt transaction now
    else transaction in
  (Ok id,
   with_transactions m (<[id := transaction]> (transactions m))
     (wrap_int (id + 1))).

Definition GetTransactionByID (m : t) (transactionID : Z) : result Transaction :=
  match transactions m !! transactionID with
  | None => Err ErrNoRows
  | Some tx => Ok tx
  end.

Definition UpdateTransactionStatus (m : t) (now : Time) (txID : Z)
    (status errorMsg : string) : option error * t :=
  match transactions m !! txID with
  | None => (Some (errors_New "transaction not found"), m)
  | Some tx =>
      (None,
       with_transactions m
         (<[txID := set_tx_status tx status errorMsg now]> (transactions m))
         (nextTxID m))
  end.

Definition UpdateTransactionReference (m : t) (now : Time) (txID : Z)
    (referenceID : string) : option error * t :=
  match transactions m !! txID with
  | None => (Some (errors_New "transaction not found"), m)
  | Some tx =>
      (None,
       with_transactions m
         (<[txID := set_tx_reference tx referenceID now]> (transactions m))
         (nextTxID m))
  end.


End MockDB.

#[export] Instance MockDB_DBInterface : DBInterface MockDB.t := {|
  GetUserByID := MockDB.GetUserByID;
  GetGatewaysByPriority := MockDB.GetGatewaysByPriority;
  CreateTransaction := MockDB.CreateTransaction;
  GetTransactionByID := MockDB.GetTransactionByID;
  UpdateTransactionStatus := MockDB.UpdateTransactionStatus;
  UpdateTransactionReference := MockDB.UpdateTransactionReference |}.

(** ** package sort (Go standard library) *)

(** [sort.Slice(x, less)] reorders a slice in place.  Its documentation
    promises a sorted rearrangement and explicitly no stability; which
    rearrangement comes out depends on the release.  The selector is therefore
    written against an arbitrary [sort_Slice], and what is assumed of it is
    [sort_Slice_contract]. *)
Class SortSlice := sort_Slice : ∀ A : Type, (A → A → bool) → list A → list A.

Definition less_by {A : Type} (key : A → Z) (a b : A) : bool := key a <? key b.



Module GoSort.
(** The algorithm behind [sort.Slice] since Go 1.19 (the release the README
    asks for): [pdqsort_func] over a [lessSwap] pair.  The slice is a list,
    [data.Less(i, j)] and [data.Swap(i, j)] act on positions. *)
Section WithLess.
Context {A : Type} (less : A → A → bool).





























(** The order [insertionSort_func] produces, written on lists: each element
    moves left past the elements it is strictly less than. *)
Fixpoint insert_back (x : A) (rev_prefix : list A) : list A :=
  match rev_prefix with
  | [] => [x]
  | y :: r => if less x y then y :: insert_back x r else x :: rev_prefix
  end.

Definition insertion_sort (l : list A) : list A :=
  rev (fold_left (λ acc x, insert_back x acc) l []).

End WithLess.
End GoSort.


(** The insertion sort those releases run on a slice of at most 12 elements. *)
Definition insertion_Slice : SortSlice := λ A less l, GoSort.insertion_sort less l.

(** ** package gateway *)

Module gateway.

(** [gateway.Provider].  [IsAvailable] is a point-in-time read of the external
    state; the two processing operations transform it and return either a
    response pointer (possibly [nil]) or an error.  The [context.Context] they
    receive is part of the external state. *)
Record Provider (Ext : Type) := {
  ID : string;
  Name : string;
  DataFormat : string;
  IsAvailable : Ext → bool;
  ProcessDeposit :
    Transaction → Ext → result (option TransactionResponse) * Ext;
  ProcessWithdrawal :
    Transaction → Ext → result (option TransactionResponse) * Ext }.
Arguments ID {Ext} _.
Arguments Name {Ext} _.
Arguments DataFormat {Ext} _.
Arguments IsAvailable {Ext} _ _.
Arguments ProcessDeposit {Ext} _ _ _.
Arguments ProcessWithdrawal {Ext} _ _ _.

(** [gateway.SelectorInterface]; the store a selector consults is passed to
    [SelectGateway], since the process shares one store between the selector
    and the transaction service. *)
Class SelectorInterface (Ext D S : Type) := {
  SelectGateway : S → D → Ext → Z → string → result (Provider Ext);
  GetProviderByID : S → string → result (Provider Ext);
  MarkGatewayUp : S → string → S;
  MarkGatewayDown : S → string → S;
  RegisterProvider : S → Provider Ext → S }.

(** [gateway.Selector]. *)
Record Selector (Ext : Type) := {
  providers : gmap string (Provider Ext);
  healthStatus : gmap string bool }.
Arguments providers {Ext} _.
Arguments healthStatus {Ext} _.

Section Selector.
Context {Ext : Type}.

Definition NewSelector : Selector Ext :=
  {| providers := ∅; healthStatus := ∅ |}.

Definition Selector_RegisterProvider (s : Selector Ext) (provider : Provider Ext)
    : Selector Ext :=
  {| providers := <[ID provider := provider]> (providers s);
     healthStatus := <[ID provider := true]> (healthStatus s) |}.

Definition Selector_MarkGatewayDown (s : Selector Ext) (gatewayID : string)
    : Selector Ext :=
  {| providers := providers s;
     healthStatus := <[gatewayID := false]> (healthStatus s) |}.

Definition Selector_MarkGatewayUp (s : Selector Ext) (gatewayID : string)
    : Selector Ext :=
  {| providers := providers s;
     healthStatus := <[gatewayID := true]> (healthStatus s) |}.

Definition Selector_GetProviderByID (s : Selector Ext) (id : string)
    : result (Provider Ext) :=
  match providers s !! id with
  | None => Err (errors_New ("provider with ID " +:+ id +:+ " not found"))
  | Some provider => Ok provider
  end.

(** The comparison handed to [sort.Slice]. *)
Definition by_priority : GatewayPriority → GatewayPriority → bool :=
  less_by gw_Priority.

(** The [for _, gw := range gateways] loop of [SelectGateway]. *)
Fixpoint select_loop (s : Selector Ext) (x : Ext)
    (gateways : list GatewayPriority) : result (Provider Ext) :=
  match gateways with
  | [] => Err ErrNoAvailableGateway
  | gw :: rest =>
      let providerID := Sprintf_d (gw_GatewayID gw) in
      match providers s !! providerID with
      | None => select_loop s x rest
      | Some provider =>
          let isHealthy := default false (healthStatus s !! providerID) in
          if negb isHealthy then select_loop s x rest
          else if IsAvailable provider x then Ok provider
          else select_loop s x rest
      end
  end.

(** The list [SelectGateway] walks: the fetched one after [sort.Slice]. *)
Definition sorted_gateways {sorter : SortSlice} (gateways : list GatewayPriority)
    : list GatewayPriority :=
  sort_Slice GatewayPriority by_priority gateways.

Definition Selector_SelectGateway {sorter : SortSlice} {D : Type}
    `{!DBInterface D}
    (s : Selector Ext) (d : D) (x : Ext) (countryID : Z) (txType : string)
    : result (Provider Ext) :=
  match GetGatewaysByPriority d countryID with
  | Err err => Err (fmt_Errorf "failed to get gateways" err)
  | Ok gateways =>
      if (length gateways =? 0)%nat then Err ErrNoAvailableGateway
      else select_loop s x (sorted_gateways gateways)
  end.


(** What "registered, marked healthy and probe-available" means for an entry
    of a priority list. *)
Definition qualifies (s : Selector Ext) (x : Ext) (gw : GatewayPriority) : bool :=
  let providerID := Sprintf_d (gw_GatewayID gw) in
  match providers s !! providerID with
  | None => false
  | Some provider =>
      default false (healthStatus s !! providerID) && IsAvailable provider x
  end.

(** The states a selector goes through: created empty, then any sequence of
    registrations and health marks. *)
Inductive reachable : Selector Ext → Prop :=
| reachable_new : reachable NewSelector
| reachable_register s p :
    reachable s → reachable (Selector_RegisterProvider s p)
| reachable_down s id :
    reachable s → reachable (Selector_MarkGatewayDown s id)
| reachable_up s id :
    reachable s → reachable (Selector_MarkGatewayUp s id).

End Selector.

#[export] Instance Selector_SelectorInterface {sorter : SortSlice}
    {Ext D : Type} `{!DBInterface D} : SelectorInterface Ext D (Selector Ext) := {|
  SelectGateway := Selector_SelectGateway;
  GetProviderByID := Selector_GetProviderByID;
  MarkGatewayUp := Selector_MarkGatewayUp;
  MarkGatewayDown := Selector_MarkGatewayDown;
  RegisterProvider := Selector_RegisterProvider |}.

End gateway.

(** ** package gobreaker (github.com/sony/gobreaker) *)

Module gobreaker.
(** The state machine of the library behind [utils.CircuitBreaker], as far as
    [Execute] runs it: two-step requests ([beforeRequest], the wrapped call,
    [afterRequest]), generations, and the expiry that closes a counting window
    or ends the cool-down.  Panics of the wrapped call and the
    [OnStateChange] log line are left out. *)

Inductive State := StateClosed | StateHalfOpen | StateOpen.

Record Counts := {
  Requests : Z;
  TotalSuccesses : Z;
  TotalFailures : Z;
  ConsecutiveSuccesses : Z;
  ConsecutiveFailures : Z }.

Definition Counts_clear : Counts :=
  {| Requests := 0; TotalSuccesses := 0; TotalFailures := 0;
     ConsecutiveSuccesses := 0; ConsecutiveFailures := 0 |}.

Definition Counts_onRequest (c : Counts) : Counts :=
  {| Requests := wrap_uint32 (Requests c + 1);
     TotalSuccesses := TotalSuccesses c; TotalFailures := TotalFailures c;
     ConsecutiveSuccesses := ConsecutiveSuccesses c;
     ConsecutiveFailures := ConsecutiveFailures c |}.

Definition Counts_onSuccess (c : Counts) : Counts :=
  {| Requests := Requests c;
     TotalSuccesses := wrap_uint32 (TotalSuccesses c + 1);
     TotalFailures := TotalFailures c;
     ConsecutiveSuccesses := wrap_uint32 (ConsecutiveSuccesses c + 1);
     ConsecutiveFailures := 0 |}.

Definition Counts_onFailure (c : Counts) : Counts :=
  {| Requests := Requests c;
     TotalSuccesses := TotalSuccesses c;
     TotalFailures := wrap_uint32 (TotalFailures c + 1);
     ConsecutiveSuccesses := 0;
     ConsecutiveFailures := wrap_uint32 (ConsecutiveFailures c + 1) |}.

Record Settings := {
  Name : string;
  MaxRequests : Z;
  Interval : Z;
  Timeout : Z;
  ReadyToTrip : Counts → bool }.

(** [expiry] is a [time.Time]; [0] is the zero time. *)
Record CircuitBreaker := {
  name : string;
  maxRequests : Z;
  interval : Z;
  timeout : Z;
  readyToTrip : Counts → bool;
  state : State;
  generation : Z;
  counts : Counts;
  expiry : Time }.

Definition State_eqb (a b : State) : bool :=
  match a, b with
  | StateClosed, StateClosed | StateHalfOpen, StateHalfOpen
  | StateOpen, StateOpen => true
  | _, _ => false
  end.

Definition toNewGeneration (cb : CircuitBreaker) (now : Time) : CircuitBreaker :=
  {| name := name cb; maxRequests := maxRequests cb; interval := interval cb;
     timeout := timeout cb; readyToTrip := readyToTrip cb;
     state := state cb;
     generation := wrap_uint64 (generation cb + 1);
     counts := Counts_clear;
     expiry :=
       match state cb with
       | StateClosed => if interval cb =? 0 then 0 else now + interval cb
       | StateOpen => now + timeout cb
       | StateHalfOpen => 0
       end |}.

Definition with_state (cb : CircuitBreaker) (st : State) : CircuitBreaker :=
  {| name := name cb; maxRequests := maxRequests cb; interval := interval cb;
     timeout := timeout cb; readyToTrip := readyToTrip cb;
     state := st; generation := generation cb; counts := counts cb;
     expiry := expiry cb |}.

Definition with_counts (cb : CircuitBreaker) (c : Counts) : CircuitBreaker :=
  {| name := name cb; maxRequests := maxRequests cb; interval := interval cb;
     timeout := timeout cb; readyToTrip := readyToTrip cb;
     state := state cb; generation := generation cb; counts := c;
     expiry := expiry cb |}.

Definition setState (cb : CircuitBreaker) (st : State) (now : Time)
    : CircuitBreaker :=
  if State_eqb (state cb) st then cb
  else toNewGeneration (with_state cb st) now.

(** [currentState]: the breaker after the expiry check; its [state] and
    [generation] are the two values the method returns. *)
Definition currentState (cb : CircuitBreaker) (now : Time) : CircuitBreaker :=
  match state cb with
  | StateClosed =>
      if negb (expiry cb =? 0) && (expiry cb <? now)
      then toNewGeneration cb now else cb
  | StateOpen =>
      if expiry cb <? now then setState cb StateHalfOpen now else cb
  | StateHalfOpen => cb
  end.

Definition NewCircuitBreaker (st : Settings) (now : Time) : CircuitBreaker :=
  toNewGeneration
    {| name := Name st;
       maxRequests := if MaxRequests st =? 0 then 1 else MaxRequests st;
       interval := if Interval st <=? 0 then 0 else Interval st;
       timeout := if Timeout st <=? 0 then 60 * 1000000000 else Timeout st;
       readyToTrip := ReadyToTrip st;
       state := StateClosed;
       generation := 0;
       counts := Counts_clear;
       expiry := 0 |}
    now.

(** [beforeRequest]: the generation the request belongs to and the error that
    rejects it, if any. *)
Definition beforeRequest (cb : CircuitBreaker) (now : Time)
    : Z * option error * CircuitBreaker :=
  let cb := currentState cb now in
  match state cb with
  | StateOpen => (generation cb, Some ErrOpenState, cb)
  | StateHalfOpen =>
      if maxRequests cb <=? Requests (counts cb)
      then (generation cb, Some ErrTooManyRequests, cb)
      else (generation cb, None, with_counts cb (Counts_onRequest (counts cb)))
  | StateClosed =>
      (generation cb, None, with_counts cb (Counts_onRequest (counts cb)))
  end.

Definition onSuccess (cb : CircuitBreaker) (now : Time) : CircuitBreaker :=
  match state cb with
  | StateClosed => with_counts cb (Counts_onSuccess (counts cb))
  | StateHalfOpen =>
      let cb := with_counts cb (Counts_onSuccess (counts cb)) in
      if maxRequests cb <=? ConsecutiveSuccesses (counts cb)
      then setState cb StateClosed now else cb
  | StateOpen => cb
  end.

Definition onFailure (cb : CircuitBreaker) (now : Time) : CircuitBreaker :=
  match state cb with
  | StateClosed =>
      let cb := with_counts cb (Counts_onFailure (counts cb)) in
      if readyToTrip cb (counts cb) then setState cb StateOpen now else cb
  | StateHalfOpen => setState cb StateOpen now
  | StateOpen => cb
  end.

Definition afterRequest (cb : CircuitBreaker) (before : Z) (success : bool)
    (now : Time) : CircuitBreaker :=
  let cb := currentState cb now in
  if negb (generation cb =? before) then cb
  else if success then onSuccess cb now else onFailure cb now.

Section Execute.
Context {St : Type} (time_Now : St → Time).

(** [cb.Execute(req)], for a [req] whose value is always [nil]: the error it
    returns, the breaker afterwards and the state the call leaves. *)
Definition Execute (cb : CircuitBreaker) (req : St → option error * St)
    (s : St) : option error * CircuitBreaker * St :=
  match beforeRequest cb (time_Now s) with
  | (_, Some err, cb) => (Some err, cb, s)
  | (generation, None, cb) =>
      let '(err, s) := req s in
      (err, afterRequest cb generation (bool_decide (err = None)) (time_Now s), s)
  end.

End Execute.
End gobreaker.

(** ** package utils *)

Module utils.

Definition Second : Z := 1000000000.
Definition Millisecond : Z := 1000000.

(** [utils.CircuitBreaker]: one breaker per gateway identifier. *)
Record CircuitBreaker := {
  breakers : gmap string gobreaker.CircuitBreaker }.

Definition NewCircuitBreaker : CircuitBreaker := {| breakers := ∅ |}.

(** The [ReadyToTrip] of [GetBreaker].  The quotient of the two counters as
    [float64] is at least [0.5] exactly when twice the failures reach the
    requests: both counters are below [2^32], so their conversion is exact and
    the rounded quotient falls on the same side of [0.5] as the real one. *)
Definition ReadyToTrip (counts : gobreaker.Counts) : bool :=
  (5 <=? gobreaker.Requests counts) &&
  (gobreaker.Requests counts <=? 2 * gobreaker.TotalFailures counts).

(** What every breaker made by [GetBreaker] is configured with. *)
Definition configured (breaker : gobreaker.CircuitBreaker) : Prop :=
  gobreaker.maxRequests breaker = 5 ∧
  gobreaker.interval breaker = 30 * Second ∧
  gobreaker.timeout breaker = 60 * Second ∧
  gobreaker.readyToTrip breaker = ReadyToTrip.

(** The table holds configured breakers only. *)
Definition all_configured (cb : CircuitBreaker) : Prop :=
  ∀ gatewayID breaker,
    breakers cb !! gatewayID = Some breaker → configured breaker.

Definition settings (gatewayID : string) : gobreaker.Settings :=
  {| gobreaker.Name := "gateway-" +:+ gatewayID;
     gobreaker.MaxRequests := 5;
     gobreaker.Interval := 30 * Second;
     gobreaker.Timeout := 60 * Second;
     gobreaker.ReadyToTrip := ReadyToTrip |}.

Section WithState.
Context {St : Type} (time_Now : St → Time).

Definition GetBreaker (cb : CircuitBreaker) (gatewayID : string) (s : St)
    : gobreaker.CircuitBreaker * CircuitBreaker :=
  match breakers cb !! gatewayID with
  | Some breaker => (breaker, cb)
  | None =>
      let breaker := gobreaker.NewCircuitBreaker (settings gatewayID) (time_Now s) in
      (breaker, {| breakers := <[gatewayID := breaker]> (breakers cb) |})
  end.

(** The breaker lives behind a pointer in the map, so what [Execute] does to
    it is what the map holds afterwards. *)
Definition ExecuteWithCircuitBreaker (cb : CircuitBreaker) (gatewayID : string)
    (operation : St → option error * St) (s : St)
    : option error * CircuitBreaker * St :=
  let '(breaker, cb) := GetBreaker cb gatewayID s in
  let '(err, breaker, s) := gobreaker.Execute time_Now breaker operation s in
  (err, {| breakers := <[gatewayID := breaker]> (breakers cb) |}, s).

(** A run of calls for one gateway: each request is an operation together
    with the state of the world at the moment it is made; the breaker table is
    carried from one call to the next. *)
Fixpoint execute_sequence (cb : CircuitBreaker) (gatewayID : string)
    (requests : list ((St → option error * St) * St))
    : list (option error * St) * CircuitBreaker :=
  match requests with
  | [] => ([], cb)
  | (operation, s) :: rest =>
      let '(err, cb, s) := ExecuteWithCircuitBreaker cb gatewayID operation s in
      let '(outcomes, cb) := execute_sequence cb gatewayID rest in
      ((err, s) :: outcomes, cb)
  end.

Context (time_Sleep : Z → St → St) (rand_Intn : Z → St → Z * St).

(** The [for i := 0; i < maxRetries; i++] loop of [RetryOperationWithBackoff];
    [n] is the number of values of [i] still below [maxRetries].  The result
    is [(true, _)] when the loop returned [nil] from inside and
    [(false, err)] when it ended with [err] in the variable of that name. *)
Fixpoint retry_loop (n : nat) (operation : St → option error * St)
    (maxRetries i : Z) (backoff maxBackoff : Z) (err : option error) (s : St)
    : bool * option error * St :=
  match n with
  | O => (false, err, s)
  | S n' =>
      let '(err, s) := operation s in
      match err with
      | None => (true, None, s)
      | Some _ =>
          if i =? maxRetries - 1 then (false, err, s)
          else
            let '(r, s) := rand_Intn 50 s in
            let jitter := wrap_int ((50 + r) * Millisecond) in
            let sleepTime := wrap_int (backoff + jitter) in
            let s := time_Sleep sleepTime s in
            let backoff := wrap_int (backoff * 2) in
            let backoff := if maxBackoff <? backoff then maxBackoff else backoff in
            retry_loop n' operation maxRetries (i + 1) backoff maxBackoff err s
      end
  end.

Definition RetryOperationWithBackoff (operation : St → option error * St)
    (maxRetries : Z) (initialBackoff maxBackoff : Z) (s : St)
    : option error * St :=
  match retry_loop (Z.to_nat maxRetries) operation maxRetries 0
          initialBackoff maxBackoff None s with
  | (true, _, s) => (None, s)
  | (false, err, s) =>
      (Some (Errorf ("operation failed after " +:+ Sprintf_d maxRetries
                     +:+ " attempts") err), s)
  end.

Definition RetryOperation (operation : St → option error * St)
    (maxRetries : Z) (s : St) : option error * St :=
  RetryOperationWithBackoff operation maxRetries
    (100 * Millisecond) (5 * Second) s.

End WithState.
End utils.

(** ** package services *)

Module services.
Import gateway.

(** [atoi]: [strconv.Atoi] with its error dropped. *)
Definition atoi (s : string) : Z := fst (Atoi s).

Section TransactionService.
Context {Ext D S : Type} {store : DBInterface D}
  {selector : SelectorInterface Ext D S}.
Context (time_Now : Ext → Time).

(** The three fields of [TransactionService] together with what surrounds a
    call: the external state and the goroutines started so far, each recorded
    by the arguments of its [queueTransaction]. *)
Record World := {
  db : D;
  gatewaySelector : S;
  circuitBreaker : utils.CircuitBreaker;
  ext : Ext;
  goroutines : list (Transaction * string) }.

(** [NewTransactionService]. *)
Definition NewTransactionService (dbInterface : D) (selector : S) (x : Ext)
    : World :=
  {| db := dbInterface; gatewaySelector := selector;
     circuitBreaker := utils.NewCircuitBreaker; ext := x; goroutines := [] |}.

(** What the [operation] closure reads and writes: the store, the external
    state and the captured variable [response]. *)
Definition OpState : Type := D * Ext * option TransactionResponse.

Definition op_time_Now (st : OpState) : Time := time_Now (st.1.2).

(** The [operation] closure of [ProcessDeposit] and [ProcessWithdrawal];
    [call] is the provider method it invokes. *)
Definition operation
    (call : Transaction → Ext → result (option TransactionResponse) * Ext)
    (transaction : Transaction) (st : OpState) : option error * OpState :=
  let '(d, x, _) := st in
  let '(r, x) := call transaction x in
  match r with
  | Err processingErr =>
      (Some (fmt_Errorf "gateway processing failed" processingErr), (d, x, None))
  | Ok response =>
      let d :=
        match response with
        | Some resp =>
            if (0 <? resp_TransactionID resp)
               && negb (String.eqb (resp_RedirectURL resp) "")
            then snd (UpdateTransactionReference d (time_Now x)
                        (tx_ID transaction) (resp_RedirectURL resp))
            else d
        | None => d
        end in
      (None, (d, x, response))
  end.

(** The common body of [ProcessDeposit] and [ProcessWithdrawal], which differ
    in the operation kind handed to the selector, the [Type] of the record and
    the provider method called. *)
Definition process (txType kind : string)
    (call : Provider Ext → Transaction → Ext →
            result (option TransactionResponse) * Ext)
    (w : World) (req : TransactionRequest)
    : result (option TransactionResponse) * World :=
  match GetUserByID (db w) (req_UserID req) with
  | Err err => (Err (fmt_Errorf "failed to get user" err), w)
  | Ok user =>
  match SelectGateway (gatewaySelector w) (db w) (ext w) (u_CountryID user)
          txType with
  | Err err => (Err (fmt_Errorf "failed to select gateway" err), w)
  | Ok provider =>
  let transaction :=
    {| tx_ID := 0; tx_Amount := req_Amount req; tx_Currency := req_Currency req;
       tx_Type := kind; tx_Status := consts.Pending; tx_UserID := u_ID user;
       tx_GatewayID := atoi (ID provider); tx_CountryID := u_CountryID user;
       tx_ReferenceID := ""; tx_ErrorMessage := "";
       tx_CreatedAt := time_Now (ext w); tx_UpdatedAt := 0 |} in
  match CreateTransaction (db w) (time_Now (ext w)) transaction with
  | (Err err, d) =>
      (Err (fmt_Errorf "failed to create transaction" err),
       {| db := d; gatewaySelector := gatewaySelector w;
          circuitBreaker := circuitBreaker w; ext := ext w;
          goroutines := goroutines w |})
  | (Ok txID, d) =>
  let transaction := set_tx_ID transaction txID in
  let '(err, cb, (d, x, response)) :=
    utils.ExecuteWithCircuitBreaker op_time_Now (circuitBreaker w)
      (ID provider) (operation (call provider) transaction) (d, ext w, None) in
  match err with
  | Some e =>
      let selector := MarkGatewayDown (gatewaySelector w) (ID provider) in
      let d := snd (UpdateTransactionStatus d (time_Now x) (tx_ID transaction)
                      "failed" (Error e)) in
      (Err e,
       {| db := d; gatewaySelector := selector; circuitBreaker := cb;
          ext := x; goroutines := goroutines w |})
  | None =>
      let d := snd (UpdateTransactionStatus d (time_Now x) (tx_ID transaction)
                      "processing" "") in
      (Ok response,
       {| db := d; gatewaySelector := gatewaySelector w; circuitBreaker := cb;
          ext := x;
          goroutines := goroutines w ++ [(transaction, DataFormat provider)] |})
  end end end end.

Definition ProcessDeposit : World → TransactionRequest →
    result (option TransactionResponse) * World :=
  process "deposit" consts.Deposit gateway.ProcessDeposit.

Definition ProcessWithdrawal : World → TransactionRequest →
    result (option TransactionResponse) * World :=
  process "withdrawal" consts.Withdrawal gateway.ProcessWithdrawal.

Definition HandleCallback (w : World) (callbackData : CallbackData)
    : option error * World :=
  let status := cb_Status callbackData in
  let errorMsg :=
    if negb (String.eqb status consts.Completed)
       && negb (String.eqb status consts.Processing)
    then cb_Message callbackData else "" in
  match UpdateTransactionStatus (db w) (time_Now (ext w))
          (cb_TransactionID callbackData) status errorMsg with
  | (Some err, d) =>
      (Some (fmt_Errorf "failed to update transaction" err),
       {| db := d; gatewaySelector := gatewaySelector w;
          circuitBreaker := circuitBreaker w; ext := ext w;
          goroutines := goroutines w |})
  | (None, d) =>
      let selector :=
        if negb (String.eqb (cb_GatewayID callbackData) "")
        then MarkGatewayUp (gatewaySelector w) (cb_GatewayID callbackData)
        else gatewaySelector w in
      (None,
       {| db := d; gatewaySelector := selector;
          circuitBreaker := circuitBreaker w; ext := ext w;
          goroutines := goroutines w |})
  end.

End TransactionService.
End services.

(** ** Sample instances

    A concrete external state, the three providers [cmd/main.go] registers and
    the selector stub of the service tests, used to run the definitions. *)

Module sample.
Import gateway.

(** The external state: the clock, the providers whose probe answers yes, the
    providers whose processing fails, and how many provider operations have
    run. *)
Record Ext := {
  clock : Time;
  up : list string;
  failing : list string;
  calls : nat }.

Definition time_Now (x : Ext) : Time := clock x.

Definition tick (x : Ext) : Ext :=
  {| clock := clock x + 500 * utils.Millisecond; up := up x;
     failing := failing x; calls := S (calls x) |}.

Definition at_time (x : Ext) (now : Time) : Ext :=
  {| clock := now; up := up x; failing := failing x; calls := calls x |}.

(** A provider in the manner of [MockProvider], its random draws replaced by
    what the external state says. *)
Definition provider (id name dataFormat : string) : Provider Ext :=
  {| ID := id; Name := name; DataFormat := dataFormat;
     IsAvailable := λ x, bool_decide (id ∈ up x);
     ProcessDeposit := λ tx x,
       (if bool_decide (id ∈ failing x)
        then Err (errors_New "deposit processing failed: gateway unavailable")
        else Ok (Some {| resp_Status := "processing";
                         resp_TransactionID := tx_ID tx;
                         resp_Message := "Transaction is being processed";
                         resp_RedirectURL :=
                           "https://" +:+ name +:+ ".example.com/payment/"
                           +:+ name +:+ "-" +:+ Sprintf_d (tx_ID tx) |}),
        tick x);
     ProcessWithdrawal := λ tx x,
       (if bool_decide (id ∈ failing x)
        then Err (errors_New "withdrawal processing failed: gateway unavailable")
        else Ok (Some {| resp_Status := "processing";
                         resp_TransactionID := tx_ID tx;
                         resp_Message := "Withdrawal request is being processed";
                         resp_RedirectURL := "" |}),
        tick x) |}.

Definition paypal : Provider Ext := provider (Sprintf_d 1) "PayPal" "application/json".
Definition stripe : Provider Ext := provider (Sprintf_d 2) "Stripe" "application/json".
Definition adyen : Provider Ext := provider (Sprintf_d 3) "Adyen" "application/xml".

(** [registerPaymentGateways]. *)
Definition registered : Selector Ext :=
  Selector_RegisterProvider
    (Selector_RegisterProvider
       (Selector_RegisterProvider NewSelector paypal) stripe) adyen.

Definition all_up : Ext :=
  {| clock := 1000 * utils.Second; up := ["1"; "2"; "3"]; failing := [];
     calls := 0 |}.

Definition paypal_fails : Ext :=
  {| clock := 1000 * utils.Second; up := ["1"; "2"; "3"]; failing := ["1"];
     calls := 0 |}.



(** Operations to run under the breaker and the retry executor. *)
Definition failing_op (x : Ext) : option error * Ext :=
  (Some (errors_New "gateway processing failed"), tick x).

Definition passing_op (x : Ext) : option error * Ext := (None, tick x).

(** An operation that fails until it has been invoked [failures] times. *)
Definition flaky_op (failures : nat) (x : Ext) : option error * Ext :=
  (if (calls x <? failures)%nat
   then Some (errors_New ("publish failed #" +:+ pretty (calls x)))
   else None,
   tick x).

Definition time_Sleep (d : Z) (x : Ext) : Ext := at_time x (clock x + d).

(** A random source that always draws [7]. *)
Definition rand_Intn (n : Z) (x : Ext) : Z * Ext := (7, x).

(** The breaker table after three failed and two successful calls for gateway
    ["1"], all within three seconds. *)
Definition after_FFFSS : utils.CircuitBreaker * Ext :=
  let '(_, cb, x) := utils.ExecuteWithCircuitBreaker time_Now
                       utils.NewCircuitBreaker "1" failing_op all_up in
  let '(_, cb, x) := utils.ExecuteWithCircuitBreaker time_Now cb "1" failing_op x in
  let '(_, cb, x) := utils.ExecuteWithCircuitBreaker time_Now cb "1" failing_op x in
  let '(_, cb, x) := utils.ExecuteWithCircuitBreaker time_Now cb "1" passing_op x in
  let '(_, cb, x) := utils.ExecuteWithCircuitBreaker time_Now cb "1" passing_op x in
  (cb, x).

(** The same after four failed calls. *)
Definition after_FFFF : utils.CircuitBreaker * Ext :=
  let '(_, cb, x) := utils.ExecuteWithCircuitBreaker time_Now
                       utils.NewCircuitBreaker "1" failing_op all_up in
  let '(_, cb, x) := utils.ExecuteWithCircuitBreaker time_Now cb "1" failing_op x in
  let '(_, cb, x) := utils.ExecuteWithCircuitBreaker time_Now cb "1" failing_op x in
  let '(_, cb, x) := utils.ExecuteWithCircuitBreaker time_Now cb "1" failing_op x in
  (cb, x).

(** The selector of [cmd/main.go], sorting as Go does on short slices. *)
Definition wired_selector : SelectorInterface Ext MockDB.t (Selector Ext) :=
  Selector_SelectorInterface (sorter := insertion_Slice).

(** The service as [cmd/main.go] wires it: the in-memory store, the selector
    with the three providers, no breaker yet. *)
Definition wired (x : Ext)
    : services.World (Ext := Ext) (D := MockDB.t) (S := Selector Ext) :=
  services.NewTransactionService (MockDB.NewMockDB 0) registered x.


Definition request (userID : Z) : TransactionRequest :=
  {| req_UserID := userID; req_Amount := 100; req_Currency := "USD" |}.

Definition callback (txID : Z) (status gatewayID : string) : CallbackData :=
  {| cb_TransactionID := txID; cb_Status := status;
     cb_Message := "reported by gateway"; cb_ReferenceID := "ref-123";
     cb_GatewayID := gatewayID; cb_Timestamp := "" |}.





End sample.

(** ** Further definitions

    The parts of the packages that the properties at the end of the file are
    about and that the definitions above did not need. *)

Module MockDB_state.
(** The shape [NewMockDB] starts from and every method keeps as long as the
    identifier counter has not run through the whole of [int]: each record is
    filed under its own identifier, and identifiers handed out so far lie
    below the counter. *)
Definition well_formed (m : MockDB.t) : Prop :=
  1 ≤ MockDB.nextTxID m < 2 ^ 63 ∧
  ∀ id tx, MockDB.transactions m !! id = Some tx →
           tx_ID tx = id ∧ id < MockDB.nextTxID m.
End MockDB_state.

Module services_paths.
(** The reference the [operation] closure stores for a response: the redirect
    URL when there is a response with a positive transaction identifier and a
    non-empty URL, and none otherwise. *)
Definition saved_reference (response : option TransactionResponse) : string :=
  match response with
  | Some resp =>
      if (0 <? resp_TransactionID resp)
         && negb (String.eqb (resp_RedirectURL resp) "")
      then resp_RedirectURL resp else ""
  | None => ""
  end.

(** The record [ProcessDeposit] and [ProcessWithdrawal] build before they
    store it. *)
Definition new_transaction (kind : string) (req : TransactionRequest)
    (user : User) (gatewayID : Z) (now : Time) : Transaction :=
  {| tx_ID := 0; tx_Amount := req_Amount req; tx_Currency := req_Currency req;
     tx_Type := kind; tx_Status := consts.Pending; tx_UserID := u_ID user;
     tx_GatewayID := gatewayID; tx_CountryID := u_CountryID user;
     tx_ReferenceID := ""; tx_ErrorMessage := "";
     tx_CreatedAt := now; tx_UpdatedAt := 0 |}.
End services_paths.


Module breaker_state.
(** A breaker made by [GetBreaker] that is closed and has counted at most
    [n] requests in its current window. *)
Definition closed_below (n : Z) (b : gobreaker.CircuitBreaker) : Prop :=
  utils.configured b ∧ gobreaker.state b = gobreaker.StateClosed ∧
  0 ≤ gobreaker.Requests (gobreaker.counts b) ≤ n.

(** A breaker made by [GetBreaker] that is half-open and has admitted [n]
    requests since it became so, all of them successful. *)
Definition probing (n : Z) (b : gobreaker.CircuitBreaker) : Prop :=
  utils.configured b ∧ gobreaker.state b = gobreaker.StateHalfOpen ∧
  gobreaker.Requests (gobreaker.counts b) = n ∧
  gobreaker.ConsecutiveSuccesses (gobreaker.counts b) = n.

(** Where a run of probes may start: a half-open breaker with [n] successes,
    or an open one whose cool-down is over when the first request comes. *)
Definition admits (n : Z) (b : gobreaker.CircuitBreaker) (now : option Time)
    : Prop :=
  probing n b ∨
  (n = 0 ∧ utils.configured b ∧ gobreaker.state b = gobreaker.StateOpen ∧
   ∀ t, now = Some t → gobreaker.expiry b < t).
End breaker_state.
(** * Properties *)

(** ** Sorting *)

Section insertion_sort_facts.
Context {A : Type} (key : A → Z).








End insertion_sort_facts.


(** What [sort.Slice] does on a slice that is already in order. *)

Section pdqsort_facts.
Context {A : Type} (key : A → Z).
Implicit Types (data : list A).










End pdqsort_facts.

(** What it does on a short slice: only neighbours of different keys are
    swapped. *)

Section insertion_stable.
Context {A : Type} (key : A → Z).
Implicit Types (data : list A).






End insertion_stable.

(** ** The selector *)

Section selector_facts.
Import gateway.
Context {Ext : Type}.
Implicit Types (s : Selector Ext) (x : Ext) (gw : GatewayPriority).

Lemma qualifies_true s x gw :
  qualifies s x gw = true ↔
  ∃ provider,
    providers s !! Sprintf_d (gw_GatewayID gw) = Some provider ∧
    healthStatus s !! Sprintf_d (gw_GatewayID gw) = Some true ∧
    IsAvailable provider x = true.
Proof.
  unfold qualifies. split.
  - destruct (providers s !! _) as [p|]; [|done].
    destruct (healthStatus s !! _) as [[]|]; simpl; try done.
    intros Hp. by exists p.
  - intros (p & -> & -> & Hp). done.
Qed.

(** The loop skips an entry that does not qualify. *)
Lemma select_loop_skip s x gw rest :
  qualifies s x gw = false →
  select_loop s x (gw :: rest) = select_loop s x rest.
Proof.
  unfold qualifies. simpl.
  destruct (providers s !! _) as [p|]; [|done].
  destruct (default false (healthStatus s !! _)); simpl; [|done].
  by intros ->.
Qed.

(** The loop stops at an entry that qualifies. *)
Lemma select_loop_hit s x gw rest :
  qualifies s x gw = true →
  ∃ provider,
    providers s !! Sprintf_d (gw_GatewayID gw) = Some provider ∧
    select_loop s x (gw :: rest) = Ok provider.
Proof.
  unfold qualifies. simpl.
  destruct (providers s !! _) as [p|]; [|done].
  destruct (default false (healthStatus s !! _)); simpl; [|done].
  intros ->. by exists p.
Qed.



End selector_facts.



Example SelectGateway_falls_back_to_stripe :
  gateway.Selector_SelectGateway (sorter := insertion_Slice)
    (gateway.Selector_MarkGatewayDown sample.registered "1")
    (MockDB.NewMockDB 0) sample.all_up 1 "deposit" = Ok sample.stripe.
Proof. vm_compute. reflexivity. Qed.





(** ** Health marks *)

Section mark_facts.
Import gateway.
Context {Ext : Type}.
Implicit Types (s : Selector Ext) (x : Ext).

(** Setting the health flag of an identifier without a registered provider
    changes nothing the selection loop looks at. *)
Lemma select_loop_mark_unregistered s x (id : string) (b : bool)
    (l : list GatewayPriority) :
  providers s !! id = None →
  select_loop {| providers := providers s;
                 healthStatus := <[id := b]> (healthStatus s) |} x l
  = select_loop s x l.
Proof.
  intros Hid. induction l as [|gw rest IH]; simpl; [done|].
  destruct (decide (Sprintf_d (gw_GatewayID gw) = id)) as [->|Hne].
  - by rewrite Hid.
  - rewrite lookup_insert_ne by done. rewrite IH. done.
Qed.

(** Every registered provider has a health entry. *)
Lemma reachable_health_entry s :
  reachable s →
  ∀ id, is_Some (providers s !! id) → is_Some (healthStatus s !! id).
Proof.
  induction 1 as [|s p _ IH|s id0 _ IH|s id0 _ IH]; intros id; simpl.
  - rewrite lookup_empty. by intros [? ?].
  - destruct (decide (ID p = id)) as [->|Hne].
    + rewrite !lookup_insert_eq. eauto.
    + rewrite !lookup_insert_ne by done. apply IH.
  - intros Hp. destruct (decide (id0 = id)) as [->|Hne].
    + rewrite lookup_insert_eq. eauto.
    + rewrite lookup_insert_ne by done. by apply IH.
  - intros Hp. destruct (decide (id0 = id)) as [->|Hne].
    + rewrite lookup_insert_eq. eauto.
    + rewrite lookup_insert_ne by done. by apply IH.
Qed.

End mark_facts.

(** C7, refuted as stated.  On a fresh selector [MarkGatewayDown "ghost"]
    changes the state: the health map gains an entry for an identifier that no
    provider was ever registered under. *)
Lemma MarkGatewayDown_unregistered_not_noop :
  gateway.Selector_MarkGatewayDown (gateway.NewSelector (Ext := sample.Ext))
    "ghost" ≠ gateway.NewSelector ∧
  gateway.providers
    (gateway.Selector_MarkGatewayDown (gateway.NewSelector (Ext := sample.Ext))
       "ghost") !! "ghost" = None ∧
  gateway.healthStatus
    (gateway.Selector_MarkGatewayDown (gateway.NewSelector (Ext := sample.Ext))
       "ghost") !! "ghost" = Some false ∧
  gateway.healthStatus
    (gateway.Selector_MarkGatewayUp (gateway.NewSelector (Ext := sample.Ext))
       "ghost") !! "ghost" = Some true.
Proof.
  split_and!; [|done..].
  intros Heq. apply (f_equal (λ s, gateway.healthStatus s !! "ghost")) in Heq.
  vm_compute in Heq. discriminate Heq.
Qed.

(** C7, amended.  On a selector built by registrations and marks,
    [MarkGatewayDown] and [MarkGatewayUp] with an identifier that was never
    registered leave the provider registry unchanged and leave every
    [SelectGateway] and [GetProviderByID] answer unchanged, but they do write
    a health entry for that identifier.  The health map keeps an entry for
    every registered provider. *)
Theorem mark_unregistered_unobservable {Ext : Type}
    (s : gateway.Selector Ext) (id : string) :
  gateway.reachable s →
  gateway.providers s !! id = None →
  ∀ (mark : gateway.Selector Ext → string → gateway.Selector Ext) (b : bool),
    (mark = gateway.Selector_MarkGatewayDown ∧ b = false) ∨
    (mark = gateway.Selector_MarkGatewayUp ∧ b = true) →
    gateway.providers (mark s id) = gateway.providers s ∧
    gateway.healthStatus (mark s id) = <[id := b]> (gateway.healthStatus s) ∧
    gateway.healthStatus (mark s id) !! id = Some b ∧
    (∀ (sorter : SortSlice) (D : Type) (H : DBInterface D) (d : D) (x : Ext)
       (countryID : Z) (txType : string),
       gateway.Selector_SelectGateway (mark s id) d x countryID txType
       = gateway.Selector_SelectGateway s d x countryID txType) ∧
    (∀ id', gateway.Selector_GetProviderByID (mark s id) id'
            = gateway.Selector_GetProviderByID s id') ∧
    (∀ id', is_Some (gateway.providers (mark s id) !! id') →
            is_Some (gateway.healthStatus (mark s id) !! id')).
Proof.
  intros Hreach Hid mark b Hmark.
  assert (Hshape : mark s id =
            {| gateway.providers := gateway.providers s;
               gateway.healthStatus := <[id := b]> (gateway.healthStatus s) |})
    by (destruct Hmark as [[-> ->]|[-> ->]]; reflexivity).
  assert (Hreach' : gateway.reachable (mark s id))
    by (destruct Hmark as [[-> ->]|[-> ->]]; by constructor).
  split_and!.
  - by rewrite Hshape.
  - by rewrite Hshape.
  - rewrite Hshape. simpl. apply lookup_insert_eq.
  - intros sorter D H d x countryID txType.
    unfold gateway.Selector_SelectGateway.
    destruct (GetGatewaysByPriority d countryID) as [gateways|err]; [|done].
    destruct (length gateways =? 0)%nat; [done|].
    rewrite Hshape. by apply select_loop_mark_unregistered.
  - intros id'. by rewrite Hshape.
  - by apply reachable_health_entry.
Qed.

Lemma mark_unregistered_unobservable_witness :
  gateway.providers
    (gateway.Selector_MarkGatewayDown sample.registered "ghost")
  = gateway.providers sample.registered ∧
  gateway.healthStatus
    (gateway.Selector_MarkGatewayDown sample.registered "ghost") !! "ghost"
  = Some false ∧
  gateway.Selector_SelectGateway (sorter := insertion_Slice)
    (gateway.Selector_MarkGatewayDown sample.registered "ghost")
    (MockDB.NewMockDB 0) sample.all_up 1 "deposit"
  = gateway.Selector_SelectGateway (sorter := insertion_Slice)
      sample.registered (MockDB.NewMockDB 0) sample.all_up 1 "deposit".
Proof.
  assert (Hreach : gateway.reachable sample.registered)
    by (repeat constructor).
  assert (Hid : gateway.providers sample.registered !! "ghost" = None)
    by (vm_compute; reflexivity).
  destruct (mark_unregistered_unobservable sample.registered "ghost" Hreach Hid
              gateway.Selector_MarkGatewayDown false
              (or_introl (conj eq_refl eq_refl)))
    as (Hp & _ & Hh & Hsel & _ & _).
  split_and!; [exact Hp|exact Hh|apply Hsel].
Defined.

(** ** The retry executor *)

Section retry_facts.
Context {St : Type} (time_Sleep : Z → St → St) (rand_Intn : Z → St → Z * St).
Context (operation : St → option error * St).
(** [calls] observes how often the operation has been invoked. *)
Context (calls : St → nat).
Hypothesis operation_counts : ∀ s, calls (snd (operation s)) = S (calls s).
Hypothesis Sleep_keeps : ∀ d s, calls (time_Sleep d s) = calls s.
Hypothesis Intn_keeps : ∀ n s, calls (snd (rand_Intn n s)) = calls s.

Lemma retry_loop_exhausted (maxRetries maxBackoff : Z) (n : nat) :
  (∀ s, fst (operation s) ≠ None) →
  ∀ (i backoff : Z) (err : option error) (s : St),
    Z.of_nat n = maxRetries - i →
    ∃ err' s',
      utils.retry_loop time_Sleep rand_Intn n operation maxRetries i backoff
        maxBackoff err s = (false, err', s') ∧
      calls s' = (calls s + n)%nat ∧
      (n = O → err' = err) ∧
      (n ≠ O → ∃ s_last, calls s_last = (calls s + n - 1)%nat ∧
                          err' = fst (operation s_last)).
Proof.
  intros Hfail. induction n as [|n IH]; intros i backoff err s Hn; simpl.
  { exists err, s. split_and!; [done|lia|done|done]. }
  pose proof (operation_counts s) as Hc. pose proof (Hfail s) as Hf.
  destruct (operation s) as [e s1] eqn:Hop. simpl in Hc, Hf.
  destruct e as [e|]; [|done].
  destruct (Z.eqb_spec i (maxRetries - 1)) as [Hi|Hi].
  - assert (n = O) as -> by lia.
    exists (Some e), s1. split_and!; [done|lia|done|].
    intros _. exists s. split; [lia|]. by rewrite Hop.
  - pose proof (Intn_keeps 50 s1) as Hr.
    destruct (rand_Intn 50 s1) as [r s2]. simpl in Hr.
    match goal with
    | |- context [utils.retry_loop _ _ n _ _ ?i' ?b' _ ?e' ?s2'] =>
        destruct (IH i' b' e' s2') as (err' & s3 & Hloop & Hcalls & _ & Hlast);
          [lia|]
    end.
    rewrite Sleep_keeps, Hr, Hc in Hcalls.
    exists err', s3. split_and!; [done|lia|done|].
    intros _. destruct Hlast as (s_last & Hl & He); [lia|].
    rewrite Sleep_keeps, Hr, Hc in Hl.
    exists s_last. split; [lia|done].
Qed.

Lemma retry_loop_succeeds (maxRetries maxBackoff : Z) (target : nat) (n : nat) :
  (∀ s, (calls s < target)%nat → fst (operation s) ≠ None) →
  (∀ s, calls s = target → fst (operation s) = None) →
  ∀ (i backoff : Z) (err : option error) (s : St),
    Z.of_nat n = maxRetries - i →
    (calls s ≤ target)%nat →
    (target - calls s < n)%nat →
    ∃ s',
      utils.retry_loop time_Sleep rand_Intn n operation maxRetries i backoff
        maxBackoff err s = (true, None, s') ∧
      calls s' = S target.
Proof.
  intros Hfail Hok. induction n as [|n IH]; intros i backoff err s Hn Hle Hlt;
    [lia|]. simpl.
  pose proof (operation_counts s) as Hc.
  destruct (decide (calls s = target)) as [Heq|Hne].
  - pose proof (Hok s Heq) as Hs.
    destruct (operation s) as [e s1]. simpl in Hc, Hs. subst e.
    exists s1. split; [done|lia].
  - pose proof (Hfail s ltac:(lia)) as Hf.
    destruct (operation s) as [e s1]. simpl in Hc, Hf.
    destruct e as [e|]; [|done].
    destruct (Z.eqb_spec i (maxRetries - 1)) as [Hi|Hi]; [lia|].
    pose proof (Intn_keeps 50 s1) as Hr.
    destruct (rand_Intn 50 s1) as [r s2]. simpl in Hr.
    apply IH; [lia| |]; rewrite Sleep_keeps, Hr, Hc; lia.
Qed.

End retry_facts.

(** C5.  Let [calls] count the invocations of the operation.  If the
    operation fails on its first [N - 1] invocations and succeeds on the
    [N]-th, and [maxRetries] is at least [N], the executor returns [nil] after
    exactly [N] invocations.  If the operation always fails, the executor
    returns an "operation failed after [maxRetries] attempts" error after
    exactly [maxRetries] invocations; that error wraps the error of the last
    invocation. *)
Theorem RetryOperationWithBackoff_attempts {St : Type}
    (time_Sleep : Z → St → St) (rand_Intn : Z → St → Z * St)
    (operation : St → option error * St) (calls : St → nat)
    (maxRetries initialBackoff maxBackoff : Z) (s0 : St) :
  (∀ s, calls (snd (operation s)) = S (calls s)) →
  (∀ d s, calls (time_Sleep d s) = calls s) →
  (∀ n s, calls (snd (rand_Intn n s)) = calls s) →
  (∀ N : nat,
     (1 ≤ N)%nat → Z.of_nat N ≤ maxRetries →
     (∀ s, (calls s < calls s0 + N - 1)%nat → fst (operation s) ≠ None) →
     (∀ s, calls s = (calls s0 + N - 1)%nat → fst (operation s) = None) →
     ∃ s',
       utils.RetryOperationWithBackoff time_Sleep rand_Intn operation
         maxRetries initialBackoff maxBackoff s0 = (None, s') ∧
       calls s' = (calls s0 + N)%nat) ∧
  ((∀ s, fst (operation s) ≠ None) →
   1 ≤ maxRetries →
   ∃ s_last s',
     utils.RetryOperationWithBackoff time_Sleep rand_Intn operation
       maxRetries initialBackoff maxBackoff s0
     = (Some (Errorf ("operation failed after " +:+ Sprintf_d maxRetries
                      +:+ " attempts") (fst (operation s_last))), s') ∧
     is_Some (fst (operation s_last)) ∧
     calls s_last = (calls s0 + Z.to_nat maxRetries - 1)%nat ∧
     calls s' = (calls s0 + Z.to_nat maxRetries)%nat).
Proof.
  intros Hop Hsleep Hrand. split.
  - intros N HN Hmax Hfail Hok.
    destruct (retry_loop_succeeds time_Sleep rand_Intn operation calls
                Hop Hsleep Hrand maxRetries maxBackoff (calls s0 + N - 1)
                (Z.to_nat maxRetries) Hfail Hok 0 initialBackoff None s0)
      as (s' & Hloop & Hcalls); [lia..|].
    exists s'. unfold utils.RetryOperationWithBackoff. rewrite Hloop.
    split; [done|lia].
  - intros Hfail Hmax.
    destruct (retry_loop_exhausted time_Sleep rand_Intn operation calls
                Hop Hsleep Hrand maxRetries maxBackoff (Z.to_nat maxRetries)
                Hfail 0 initialBackoff None s0)
      as (err' & s' & Hloop & Hcalls & _ & Hlast); [lia|].
    destruct Hlast as (s_last & Hl & ->); [lia|].
    exists s_last, s'. unfold utils.RetryOperationWithBackoff. rewrite Hloop.
    split_and!; [done| |done|done].
    specialize (Hfail s_last). by destruct (fst (operation s_last)).
Qed.

Lemma RetryOperationWithBackoff_attempts_witness :
  (∃ x, utils.RetryOperation sample.time_Sleep sample.rand_Intn
          (sample.flaky_op 2) 3 sample.all_up = (None, x) ∧
        sample.calls x = 3%nat) ∧
  (∃ x, utils.RetryOperation sample.time_Sleep sample.rand_Intn
          sample.failing_op 3 sample.all_up
        = (Some (fmt_Errorf "operation failed after 3 attempts"
                   (errors_New "gateway processing failed")), x) ∧
        sample.calls x = 3%nat).
Proof.
  assert (Hsleep : ∀ d s, sample.calls (sample.time_Sleep d s) = sample.calls s)
    by reflexivity.
  assert (Hrand : ∀ n s, sample.calls (snd (sample.rand_Intn n s))
                         = sample.calls s) by reflexivity.
  split.
  - destruct (proj1 (RetryOperationWithBackoff_attempts
                 sample.time_Sleep sample.rand_Intn (sample.flaky_op 2)
                 sample.calls 3 (100 * utils.Millisecond) (5 * utils.Second)
                 sample.all_up (λ s, eq_refl) Hsleep Hrand) 3%nat)
      as (x & Hrun & Hx).
    + lia.
    + lia.
    + intros s Hs. simpl in Hs. unfold sample.flaky_op. simpl.
      destruct (Nat.ltb_spec (sample.calls s) 2); [done|lia].
    + intros s Hs. simpl in Hs. unfold sample.flaky_op. simpl.
      destruct (Nat.ltb_spec (sample.calls s) 2); [lia|done].
    + exists x. split; [exact Hrun|exact Hx].
  - destruct (proj2 (RetryOperationWithBackoff_attempts
                 sample.time_Sleep sample.rand_Intn sample.failing_op
                 sample.calls 3 (100 * utils.Millisecond) (5 * utils.Second)
                 sample.all_up (λ s, eq_refl) Hsleep Hrand))
      as (s_last & x & Hrun & _ & _ & Hx).
    + done.
    + lia.
    + exists x. split; [exact Hrun|exact Hx].
Defined.

(** ** The circuit breaker *)

(** C2, refuted as stated.  After three failed and two successful calls for
    one gateway, all within three seconds, the breaker has recorded 5 attempts
    of which 3 failed, so the trip condition holds of its counts; yet it is
    still closed, and the next call runs the wrapped operation and returns
    [nil]. *)
Lemma breaker_closed_despite_failure_ratio :
  let '(cb, x) := sample.after_FFFSS in
  (∃ breaker,
     utils.breakers cb !! "1" = Some breaker ∧
     gobreaker.Requests (gobreaker.counts breaker) = 5 ∧
     gobreaker.TotalFailures (gobreaker.counts breaker) = 3 ∧
     utils.ReadyToTrip (gobreaker.counts breaker) = true ∧
     gobreaker.state breaker = gobreaker.StateClosed ∧
     sample.time_Now x < gobreaker.expiry breaker) ∧
  sample.calls x = 5%nat ∧
  ∃ cb' x',
    utils.ExecuteWithCircuitBreaker sample.time_Now cb "1" sample.passing_op x
    = (None, cb', x') ∧
    sample.calls x' = 6%nat.
Proof.
  vm_compute. split.
  - eexists. split; [reflexivity|]. split_and!; reflexivity.
  - split; [reflexivity|]. eexists _, _. split; reflexivity.
Qed.

Section breaker_facts.
Context {St : Type} (time_Now : St → Time).

Lemma breakers_insert_id (cb : utils.CircuitBreaker) (gatewayID : string)
    (breaker : gobreaker.CircuitBreaker) :
  utils.breakers cb !! gatewayID = Some breaker →
  {| utils.breakers := <[gatewayID := breaker]> (utils.breakers cb) |} = cb.
Proof. intros Hb. destruct cb as [m]. simpl in *. by rewrite insert_id. Qed.

(** The configuration of a breaker never changes. *)
Lemma setState_configured (b : gobreaker.CircuitBreaker)
    (st : gobreaker.State) (now : Time) :
  utils.configured b → utils.configured (gobreaker.setState b st now).
Proof. unfold gobreaker.setState. by destruct (gobreaker.State_eqb _ _). Qed.

Lemma currentState_configured (b : gobreaker.CircuitBreaker) (now : Time) :
  utils.configured b → utils.configured (gobreaker.currentState b now).
Proof.
  intros Hb. unfold gobreaker.currentState.
  destruct (gobreaker.state b).
  - by destruct (_ && _).
  - done.
  - destruct (_ <? _); [|done]. by apply setState_configured.
Qed.

Lemma afterRequest_configured (b : gobreaker.CircuitBreaker) (before : Z)
    (success : bool) (now : Time) :
  utils.configured b →
  utils.configured (gobreaker.afterRequest b before success now).
Proof.
  intros Hb%(currentState_configured b now). unfold gobreaker.afterRequest.
  destruct (negb _); [done|].
  destruct success; unfold gobreaker.onSuccess, gobreaker.onFailure;
    destruct (gobreaker.state _); try done.
  - destruct (_ <=? _); [|done]. by apply setState_configured.
  - destruct (gobreaker.readyToTrip _ _); [|done]. by apply setState_configured.
  - by apply setState_configured.
Qed.

Lemma Execute_configured (b b' : gobreaker.CircuitBreaker)
    (req : St → option error * St) (s s' : St) (err : option error) :
  utils.configured b →
  gobreaker.Execute time_Now b req s = (err, b', s') →
  utils.configured b'.
Proof.
  intros Hb%(currentState_configured b (time_Now s)).
  unfold gobreaker.Execute, gobreaker.beforeRequest.
  destruct (gobreaker.state _).
  - destruct (req s) as [e s1]. intros [= _ <- _].
    by apply afterRequest_configured.
  - destruct (_ <=? _).
    + by intros [= _ <- _].
    + destruct (req s) as [e s1]. intros [= _ <- _].
      by apply afterRequest_configured.
  - by intros [= _ <- _].
Qed.

Lemma NewCircuitBreaker_all_configured :
  utils.all_configured utils.NewCircuitBreaker.
Proof. intros id b. simpl. by rewrite lookup_empty. Qed.

Lemma ExecuteWithCircuitBreaker_all_configured (cb cb' : utils.CircuitBreaker)
    (gatewayID : string) (operation : St → option error * St) (s s' : St)
    (err : option error) :
  utils.all_configured cb →
  utils.ExecuteWithCircuitBreaker time_Now cb gatewayID operation s
  = (err, cb', s') →
  utils.all_configured cb'.
Proof.
  intros Hcb. unfold utils.ExecuteWithCircuitBreaker, utils.GetBreaker.
  destruct (utils.breakers cb !! gatewayID) as [b|] eqn:Hb.
  - destruct (gobreaker.Execute _ _ _ _) as [[e b'] s1] eqn:Hrun.
    intros [= _ <- _] id b0. simpl.
    destruct (decide (gatewayID = id)) as [->|Hne].
    + rewrite lookup_insert_eq. intros [= <-].
      eapply Execute_configured; [|exact Hrun]. by eapply Hcb.
    + rewrite lookup_insert_ne by done. apply Hcb.
  - destruct (gobreaker.Execute _ _ _ _) as [[e b'] s1] eqn:Hrun.
    intros [= _ <- _] id b0. simpl.
    destruct (decide (gatewayID = id)) as [->|Hne].
    + rewrite lookup_insert_eq. intros [= <-].
      eapply Execute_configured; [|exact Hrun]. repeat split.
    + rewrite !lookup_insert_ne by done. apply Hcb.
Qed.

(** An open breaker whose cool-down has not run out rejects a call without
    running it and stays as it is. *)
Lemma ExecuteWithCircuitBreaker_open (cb : utils.CircuitBreaker)
    (gatewayID : string) (breaker : gobreaker.CircuitBreaker)
    (operation : St → option error * St) (s : St) :
  utils.breakers cb !! gatewayID = Some breaker →
  gobreaker.state breaker = gobreaker.StateOpen →
  time_Now s ≤ gobreaker.expiry breaker →
  utils.ExecuteWithCircuitBreaker time_Now cb gatewayID operation s
  = (Some ErrOpenState, cb, s).
Proof.
  intros Hb Hopen Hnow.
  unfold utils.ExecuteWithCircuitBreaker, utils.GetBreaker. rewrite Hb.
  unfold gobreaker.Execute, gobreaker.beforeRequest, gobreaker.currentState.
  rewrite Hopen.
  destruct (Z.ltb_spec (gobreaker.expiry breaker) (time_Now s)); [lia|].
  rewrite Hopen. by rewrite breakers_insert_id.
Qed.

Lemma execute_sequence_open (cb : utils.CircuitBreaker) (gatewayID : string)
    (breaker : gobreaker.CircuitBreaker)
    (requests : list ((St → option error * St) * St)) :
  utils.breakers cb !! gatewayID = Some breaker →
  gobreaker.state breaker = gobreaker.StateOpen →
  Forall (λ r, time_Now (snd r) ≤ gobreaker.expiry breaker) requests →
  utils.execute_sequence time_Now cb gatewayID requests
  = (map (λ r, (Some ErrOpenState, snd r)) requests, cb).
Proof.
  intros Hb Hopen. induction 1 as [|[operation s] rest Hs _ IH]; [done|].
  simpl in Hs. simpl.
  rewrite (ExecuteWithCircuitBreaker_open cb gatewayID breaker) by done.
  by rewrite IH.
Qed.

(** A failed call on a closed breaker, made and finished inside the counting
    window, opens the breaker when the counts it leaves satisfy
    [ReadyToTrip]. *)
Lemma ExecuteWithCircuitBreaker_trips (cb : utils.CircuitBreaker)
    (gatewayID : string) (breaker : gobreaker.CircuitBreaker)
    (operation : St → option error * St) (s s1 : St) (e : error) :
  utils.breakers cb !! gatewayID = Some breaker →
  utils.configured breaker →
  gobreaker.state breaker = gobreaker.StateClosed →
  time_Now s ≤ gobreaker.expiry breaker →
  time_Now s1 ≤ gobreaker.expiry breaker →
  operation s = (Some e, s1) →
  utils.ReadyToTrip
    (gobreaker.Counts_onFailure
       (gobreaker.Counts_onRequest (gobreaker.counts breaker))) = true →
  ∃ cb1 breaker1,
    utils.ExecuteWithCircuitBreaker time_Now cb gatewayID operation s
    = (Some e, cb1, s1) ∧
    utils.breakers cb1 !! gatewayID = Some breaker1 ∧
    gobreaker.state breaker1 = gobreaker.StateOpen ∧
    gobreaker.expiry breaker1 = time_Now s1 + 60 * utils.Second.
Proof.
  intros Hb (_ & _ & Htimeout & Hready) Hclosed Hnow Hnow1 Hop Htrip.
  unfold utils.ExecuteWithCircuitBreaker, utils.GetBreaker. rewrite Hb.
  unfold gobreaker.Execute, gobreaker.beforeRequest, gobreaker.currentState.
  rewrite Hclosed.
  destruct (Z.ltb_spec (gobreaker.expiry breaker) (time_Now s)); [lia|].
  rewrite andb_false_r, Hclosed, Hop.
  unfold gobreaker.afterRequest, gobreaker.currentState. simpl.
  rewrite Hclosed.
  destruct (Z.ltb_spec (gobreaker.expiry breaker) (time_Now s1)); [lia|].
  rewrite andb_false_r. simpl. rewrite Z.eqb_refl. simpl.
  unfold gobreaker.onFailure. simpl. rewrite Hclosed, Hready, Htrip.
  unfold gobreaker.setState. simpl. rewrite Hclosed. simpl.
  eexists _, _. split; [reflexivity|]. simpl.
  rewrite lookup_insert_eq. split; [reflexivity|]. simpl.
  split; [reflexivity|]. by rewrite Htimeout.
Qed.

End breaker_facts.

(** C2, amended.  When a failed call is recorded on a closed breaker inside
    its counting window and the window's counts, that call included, show at
    least 5 attempts with at least half of them failed, the breaker opens for
    60 seconds from that moment; every later [ExecuteWithCircuitBreaker] call
    for the same identifier made before those 60 seconds are over fails with
    [ErrOpenState], leaves the world as it found it (the wrapped operation
    is not run) and leaves the breaker open. *)
Theorem breaker_opens_and_rejects {St : Type} (time_Now : St → Time)
    (cb : utils.CircuitBreaker) (gatewayID : string)
    (breaker : gobreaker.CircuitBreaker)
    (operation : St → option error * St) (s s1 : St) (e : error) :
  utils.all_configured cb →
  utils.breakers cb !! gatewayID = Some breaker →
  gobreaker.state breaker = gobreaker.StateClosed →
  time_Now s ≤ gobreaker.expiry breaker →
  time_Now s1 ≤ gobreaker.expiry breaker →
  operation s = (Some e, s1) →
  5 ≤ wrap_uint32 (gobreaker.Requests (gobreaker.counts breaker) + 1) →
  wrap_uint32 (gobreaker.Requests (gobreaker.counts breaker) + 1)
  ≤ 2 * wrap_uint32 (gobreaker.TotalFailures (gobreaker.counts breaker) + 1) →
  ∃ cb1,
    utils.ExecuteWithCircuitBreaker time_Now cb gatewayID operation s
    = (Some e, cb1, s1) ∧
    ∀ requests : list ((St → option error * St) * St),
      Forall (λ r, time_Now (snd r) ≤ time_Now s1 + 60 * utils.Second)
        requests →
      utils.execute_sequence time_Now cb1 gatewayID requests
      = (map (λ r, (Some ErrOpenState, snd r)) requests, cb1).
Proof.
  intros Hall Hb Hclosed Hnow Hnow1 Hop Hmin Hratio.
  destruct (ExecuteWithCircuitBreaker_trips time_Now cb gatewayID breaker
              operation s s1 e Hb (Hall _ _ Hb) Hclosed Hnow Hnow1 Hop)
    as (cb1 & breaker1 & Hrun & Hb1 & Hopen & Hexp).
  { unfold utils.ReadyToTrip. simpl.
    apply andb_true_intro. split; by apply Z.leb_le. }
  exists cb1. split; [exact Hrun|].
  intros requests Hreq.
  apply (execute_sequence_open time_Now cb1 gatewayID breaker1); [done..|].
  by rewrite Hexp.
Qed.

Lemma breaker_opens_and_rejects_witness :
  let '(cb, x) := sample.after_FFFF in
  ∃ cb1,
    utils.ExecuteWithCircuitBreaker sample.time_Now cb "1" sample.failing_op x
    = (Some (errors_New "gateway processing failed"), cb1, sample.tick x) ∧
    utils.execute_sequence sample.time_Now cb1 "1"
      [(sample.passing_op, sample.tick x);
       (sample.passing_op, sample.at_time x (1062 * utils.Second))]
    = ([(Some ErrOpenState, sample.tick x);
        (Some ErrOpenState, sample.at_time x (1062 * utils.Second))], cb1).
Proof.
  destruct sample.after_FFFF as [cb x] eqn:Hrun.
  assert (Hall : utils.all_configured cb).
  { unfold sample.after_FFFF in Hrun.
    repeat match type of Hrun with
    | context [utils.ExecuteWithCircuitBreaker ?t ?c ?g ?op ?s] =>
        let H := fresh "Hcall" in
        destruct (utils.ExecuteWithCircuitBreaker t c g op s)
          as [[? ?] ?] eqn:H
    end.
    injection Hrun as <- _.
    repeat match goal with
    | H : utils.ExecuteWithCircuitBreaker _ _ _ _ _ = _ |- _ =>
        apply ExecuteWithCircuitBreaker_all_configured in H; [exact H|clear H]
    end.
    apply NewCircuitBreaker_all_configured. }
  destruct (utils.breakers cb !! "1") as [breaker|] eqn:Hb;
    [|rewrite <-(f_equal (λ p, utils.breakers (fst p) !! "1") Hrun) in Hb;
      vm_compute in Hb; discriminate].
  assert (Hstate : (gobreaker.state breaker, gobreaker.counts breaker,
                    gobreaker.expiry breaker, x)
                   = (gobreaker.StateClosed,
                      {| gobreaker.Requests := 4; gobreaker.TotalSuccesses := 0;
                         gobreaker.TotalFailures := 4;
                         gobreaker.ConsecutiveSuccesses := 0;
                         gobreaker.ConsecutiveFailures := 4 |},
                      1030 * utils.Second,
                      {| sample.clock := 1002 * utils.Second;
                         sample.up := ["1"; "2"; "3"]; sample.failing := [];
                         sample.calls := 4 |})).
  { assert (Hx : x = snd sample.after_FFFF) by (by rewrite Hrun).
    assert (Hbr : Some breaker
                  = utils.breakers (fst sample.after_FFFF) !! "1")
      by (by rewrite Hrun).
    clear Hrun Hall Hb. subst x.
    destruct (utils.breakers (fst sample.after_FFFF) !! "1") as [b0|] eqn:Hb0;
      [|discriminate].
    injection Hbr as ->. vm_compute in Hb0. injection Hb0 as <-.
    vm_compute. reflexivity. }
  injection Hstate as Hst Hcounts Hexp Hx.
  destruct (breaker_opens_and_rejects sample.time_Now cb "1" breaker
              sample.failing_op x (sample.tick x)
              (errors_New "gateway processing failed") Hall Hb Hst)
    as (cb1 & Hcall & Hseq).
  - rewrite Hexp, Hx. vm_compute. discriminate.
  - rewrite Hexp, Hx. vm_compute. discriminate.
  - reflexivity.
  - rewrite Hcounts. vm_compute. discriminate.
  - rewrite Hcounts. vm_compute. discriminate.
  - exists cb1. split; [exact Hcall|].
    apply Hseq. rewrite Hx. repeat constructor; vm_compute; discriminate.
Defined.

(** ** The transaction service *)

(** A call through the breaker either is rejected, leaving the state as it
    was, or runs the operation exactly once and returns its error. *)
Lemma ExecuteWithCircuitBreaker_cases {St : Type} (time_Now : St → Time)
    (cb cb' : utils.CircuitBreaker) (gatewayID : string)
    (operation : St → option error * St) (s s' : St) (err : option error) :
  utils.ExecuteWithCircuitBreaker time_Now cb gatewayID operation s
  = (err, cb', s') →
  (s' = s ∧ (err = Some ErrOpenState ∨ err = Some ErrTooManyRequests)) ∨
  operation s = (err, s').
Proof.
  unfold utils.ExecuteWithCircuitBreaker, gobreaker.Execute.
  destruct (utils.GetBreaker time_Now cb gatewayID s) as [breaker cb0].
  unfold gobreaker.beforeRequest.
  destruct (gobreaker.state (gobreaker.currentState breaker (time_Now s))).
  - destruct (operation s) as [e s1]. intros [= <- _ <-]. by right.
  - destruct (_ <=? _).
    + intros [= <- _ <-]. left. eauto.
    + destruct (operation s) as [e s1]. intros [= <- _ <-]. by right.
  - intros [= <- _ <-]. left. eauto.
Qed.

Section service_facts.
Import gateway services.
Context {Ext D S : Type} `{!DBInterface D} `{!SelectorInterface Ext D S}.
Context (time_Now : Ext → Time).
Implicit Types (w : World (Ext := Ext) (D := D) (S := S)).

(** When the closure fails it has not touched the store. *)
Lemma operation_error_keeps_store
    (call : Transaction → Ext → result (option TransactionResponse) * Ext)
    (transaction : Transaction) (d d' : D) (x x' : Ext)
    (r r' : option TransactionResponse) (e : error) :
  operation time_Now call transaction (d, x, r) = (Some e, (d', x', r')) →
  d' = d.
Proof.
  unfold operation. destruct (call transaction x) as [[resp|perr] x1].
  - intros [=].
  - by intros [= _ <- _ _].
Qed.

Lemma breaker_error_keeps_store (cb cb' : utils.CircuitBreaker)
    (gatewayID : string)
    (call : Transaction → Ext → result (option TransactionResponse) * Ext)
    (transaction : Transaction) (d d' : D) (x x' : Ext)
    (r r' : option TransactionResponse) (e : error) :
  utils.ExecuteWithCircuitBreaker (op_time_Now time_Now) cb gatewayID
    (operation time_Now call transaction) (d, x, r)
  = (Some e, cb', (d', x', r')) →
  d' = d.
Proof.
  intros Hrun.
  apply ExecuteWithCircuitBreaker_cases in Hrun as [[[= -> -> ->] _]|Hop];
    [done|].
  by eapply operation_error_keeps_store.
Qed.

(** On any store: once the record exists and the call through the breaker
    has failed, the selector is marked down and the store is the one the
    [failed] write leaves; whether that write succeeded is not looked at. *)
Lemma process_failure_issues_write (txType kind : string)
    (call : Provider Ext → Transaction → Ext →
            result (option TransactionResponse) * Ext)
    w (req : TransactionRequest) (user : User) (provider : Provider Ext)
    (txID : Z) (d1 : D) (e : error) :
  GetUserByID (db w) (req_UserID req) = Ok user →
  SelectGateway (gatewaySelector w) (db w) (ext w) (u_CountryID user) txType
  = Ok provider →
  CreateTransaction (db w) (time_Now (ext w))
    {| tx_ID := 0; tx_Amount := req_Amount req; tx_Currency := req_Currency req;
       tx_Type := kind; tx_Status := consts.Pending; tx_UserID := u_ID user;
       tx_GatewayID := atoi (ID provider); tx_CountryID := u_CountryID user;
       tx_ReferenceID := ""; tx_ErrorMessage := "";
       tx_CreatedAt := time_Now (ext w); tx_UpdatedAt := 0 |}
  = (Ok txID, d1) →
  let out := process time_Now txType kind call w req in
  fst out = Err e →
  gatewaySelector (snd out) = MarkGatewayDown (gatewaySelector w) (ID provider) ∧
  db (snd out)
  = snd (UpdateTransactionStatus d1 (time_Now (ext (snd out))) txID
           "failed" (Error e)).
Proof.
  intros Huser Hsel Hcreate out. subst out. unfold process.
  rewrite Huser, Hsel, Hcreate.
  match goal with
  | |- context [utils.ExecuteWithCircuitBreaker ?t ?cb ?g ?op ?st] =>
      destruct (utils.ExecuteWithCircuitBreaker t cb g op st)
        as [[err cb'] [[d x] r]] eqn:Hrun
  end.
  destruct err as [e'|]; simpl; [|done].
  intros [= ->]. apply breaker_error_keeps_store in Hrun as ->. done.
Qed.

End service_facts.

(** C4.  When the user lookup fails, or it succeeds and gateway selection
    fails, [ProcessDeposit] and [ProcessWithdrawal] return the wrapped error
    and leave the world exactly as it was: the store is unchanged, so no
    transaction record has been created, and the external state and the
    breaker table are unchanged, so no provider operation has run.  When
    the selection error is [ErrNoAvailableGateway], so is the error returned
    (under [errors.Is]). *)
Theorem initiation_failure_leaves_world {Ext D S : Type}
    {store : DBInterface D} {selector : gateway.SelectorInterface Ext D S}
    (time_Now : Ext → Time)
    (w : services.World (Ext := Ext) (D := D) (S := S))
    (req : TransactionRequest) :
  (∀ err, GetUserByID (services.db w) (req_UserID req) = Err err →
     services.ProcessDeposit time_Now w req
     = (Err (fmt_Errorf "failed to get user" err), w) ∧
     services.ProcessWithdrawal time_Now w req
     = (Err (fmt_Errorf "failed to get user" err), w)) ∧
  (∀ user err,
     GetUserByID (services.db w) (req_UserID req) = Ok user →
     (gateway.SelectGateway (services.gatewaySelector w) (services.db w)
        (services.ext w) (u_CountryID user) "deposit" = Err err →
      services.ProcessDeposit time_Now w req
      = (Err (fmt_Errorf "failed to select gateway" err), w)) ∧
     (gateway.SelectGateway (services.gatewaySelector w) (services.db w)
        (services.ext w) (u_CountryID user) "withdrawal" = Err err →
      services.ProcessWithdrawal time_Now w req
      = (Err (fmt_Errorf "failed to select gateway" err), w)) ∧
     (errors_Is err ErrNoAvailableGateway →
      errors_Is (fmt_Errorf "failed to select gateway" err)
        ErrNoAvailableGateway)).
Proof.
  split.
  - intros err Huser.
    unfold services.ProcessDeposit, services.ProcessWithdrawal,
      services.process. by rewrite Huser.
  - intros user err Huser. split_and!.
    + intros Hsel. unfold services.ProcessDeposit, services.process.
      by rewrite Huser, Hsel.
    + intros Hsel. unfold services.ProcessWithdrawal, services.process.
      by rewrite Huser, Hsel.
    + unfold errors_Is. simpl. intros Hin. by right.
Qed.

Lemma initiation_failure_leaves_world_witness :
  let w := services.NewTransactionService (MockDB.NewMockDB 0)
             (gateway.NewSelector (Ext := sample.Ext)) sample.all_up in
  services.ProcessDeposit (selector := sample.wired_selector)
    sample.time_Now w (sample.request 1)
  = (Err (fmt_Errorf "failed to select gateway" ErrNoAvailableGateway), w) ∧
  errors_Is (fmt_Errorf "failed to select gateway" ErrNoAvailableGateway)
    ErrNoAvailableGateway ∧
  services.ProcessWithdrawal (selector := sample.wired_selector)
    sample.time_Now w (sample.request 99)
  = (Err (fmt_Errorf "failed to get user" ErrNoRows), w).
Proof.
  intros w.
  pose proof (initiation_failure_leaves_world
                (selector := sample.wired_selector) sample.time_Now w) as Hthm.
  split_and!.
  - destruct (Hthm (sample.request 1)) as [_ Hsel].
    destruct (Hsel (MockDB.sample_user 1 "user1" "user1@example.com" 1 0)
                ErrNoAvailableGateway) as (Hdep & _ & _).
    + vm_compute. reflexivity.
    + apply Hdep. vm_compute. reflexivity.
  - destruct (Hthm (sample.request 1)) as [_ Hsel].
    destruct (Hsel (MockDB.sample_user 1 "user1" "user1@example.com" 1 0)
                ErrNoAvailableGateway) as (_ & _ & His).
    + vm_compute. reflexivity.
    + apply His. left.
  - destruct (Hthm (sample.request 99)) as [Huser _].
    apply (Huser ErrNoRows). vm_compute. reflexivity.
Defined.

(** The error detail [HandleCallback] stores with a status. *)
Lemma callback_errorMsg_cases (callbackData : CallbackData) :
  (if negb (String.eqb (cb_Status callbackData) consts.Completed)
      && negb (String.eqb (cb_Status callbackData) consts.Processing)
   then cb_Message callbackData else "")
  = (if bool_decide (cb_Status callbackData = "completed"
                     ∨ cb_Status callbackData = "processing")
     then "" else cb_Message callbackData).
Proof.
  unfold consts.Completed, consts.Processing.
  destruct (String.eqb_spec (cb_Status callbackData) "completed") as [H1|H1].
  { rewrite bool_decide_eq_true_2 by (by left). done. }
  destruct (String.eqb_spec (cb_Status callbackData) "processing") as [H2|H2].
  { rewrite bool_decide_eq_true_2 by (by right). done. }
  rewrite bool_decide_eq_false_2 by (by intros [?|?]). done.
Qed.

(** C10.  When the status update of a callback fails, [HandleCallback]
    returns that error wrapped and the selector is the one it started with:
    [MarkGatewayUp] has not been called, whatever gateway identifier the
    payload carries.  Only the store may differ, by what the failed update
    left behind. *)
Theorem HandleCallback_update_failure {Ext D S : Type}
    {store : DBInterface D} {selector : gateway.SelectorInterface Ext D S}
    (time_Now : Ext → Time)
    (w : services.World (Ext := Ext) (D := D) (S := S))
    (callbackData : CallbackData) (err : error) :
  fst (UpdateTransactionStatus (services.db w) (time_Now (services.ext w))
         (cb_TransactionID callbackData) (cb_Status callbackData)
         (if bool_decide (cb_Status callbackData = "completed"
                          ∨ cb_Status callbackData = "processing")
          then "" else cb_Message callbackData)) = Some err →
  ∃ w',
    services.HandleCallback time_Now w callbackData
    = (Some (fmt_Errorf "failed to update transaction" err), w') ∧
    services.gatewaySelector w' = services.gatewaySelector w ∧
    services.circuitBreaker w' = services.circuitBreaker w ∧
    services.ext w' = services.ext w.
Proof.
  intros Hupd. unfold services.HandleCallback.
  rewrite callback_errorMsg_cases.
  destruct (UpdateTransactionStatus _ _ _ _ _) as [e d]. simpl in Hupd.
  subst e. eexists. split; [reflexivity|]. done.
Qed.

Lemma HandleCallback_update_failure_witness :
  ∃ w',
    services.HandleCallback (selector := sample.wired_selector)
      sample.time_Now
      (sample.wired sample.all_up) (sample.callback 123 "completed" "1")
    = (Some (fmt_Errorf "failed to update transaction"
               (errors_New "transaction not found")), w') ∧
    services.gatewaySelector w' = sample.registered ∧
    services.circuitBreaker w' = utils.NewCircuitBreaker ∧
    services.ext w' = sample.all_up.
Proof.
  apply (HandleCallback_update_failure (selector := sample.wired_selector)
           sample.time_Now (sample.wired sample.all_up)
           (sample.callback 123 "completed" "1")
           (errors_New "transaction not found")).
  vm_compute. reflexivity.
Defined.

(** C8.  When a callback carries a non-empty gateway identifier and its
    status update succeeds, [HandleCallback] returns [nil] and the selector
    afterwards is [MarkGatewayUp] of the one before, for that identifier,
    whatever status the callback reports.  With the selector of the process
    this sets the health flag of that identifier to [true] and leaves the
    registry alone. *)
Theorem HandleCallback_marks_up {Ext D : Type} {store : DBInterface D}
    (sorter : SortSlice) (time_Now : Ext → Time)
    (w : services.World (Ext := Ext) (D := D) (S := gateway.Selector Ext))
    (callbackData : CallbackData) :
  cb_GatewayID callbackData ≠ "" →
  fst (UpdateTransactionStatus (services.db w) (time_Now (services.ext w))
         (cb_TransactionID callbackData) (cb_Status callbackData)
         (if bool_decide (cb_Status callbackData = "completed"
                          ∨ cb_Status callbackData = "processing")
          then "" else cb_Message callbackData)) = None →
  ∃ w',
    services.HandleCallback
      (selector := gateway.Selector_SelectorInterface) time_Now w callbackData
    = (None, w') ∧
    services.gatewaySelector w'
    = gateway.Selector_MarkGatewayUp (services.gatewaySelector w)
        (cb_GatewayID callbackData) ∧
    gateway.healthStatus (services.gatewaySelector w')
      !! cb_GatewayID callbackData = Some true ∧
    gateway.providers (services.gatewaySelector w')
    = gateway.providers (services.gatewaySelector w).
Proof.
  intros Hid Hupd. unfold services.HandleCallback.
  rewrite callback_errorMsg_cases.
  destruct (UpdateTransactionStatus _ _ _ _ _) as [e d]. simpl in Hupd.
  subst e.
  destruct (String.eqb_spec (cb_GatewayID callbackData) "") as [Heq|_];
    [done|].
  eexists. split; [reflexivity|]. simpl.
  split_and!; [done| |done]. apply lookup_insert_eq.
Qed.

Lemma HandleCallback_marks_up_witness :
  let w := snd (services.ProcessDeposit (selector := sample.wired_selector)
                  sample.time_Now (sample.wired sample.paypal_fails)
                  (sample.request 1)) in
  gateway.healthStatus (services.gatewaySelector w) !! "1" = Some false ∧
  ∃ w',
    services.HandleCallback (selector := sample.wired_selector)
      sample.time_Now w (sample.callback 1 "failed" "1") = (None, w') ∧
    services.gatewaySelector w'
    = gateway.Selector_MarkGatewayUp (services.gatewaySelector w) "1" ∧
    gateway.healthStatus (services.gatewaySelector w') !! "1" = Some true ∧
    gateway.providers (services.gatewaySelector w')
    = gateway.providers (services.gatewaySelector w).
Proof.
  intros w. split; [vm_compute; reflexivity|].
  apply (HandleCallback_marks_up insertion_Slice sample.time_Now w
           (sample.callback 1 "failed" "1")).
  - discriminate.
  - vm_compute. reflexivity.
Defined.

(** ** The service over the in-memory store *)


Section MockDB_facts.
Implicit Types (m : MockDB.t) (tx : Transaction).

Lemma UpdateTransactionStatus_hit m (now : Time) (id : Z)
    (status errorMsg : string) tx :
  MockDB.transactions m !! id = Some tx →
  MockDB.GetTransactionByID
    (snd (MockDB.UpdateTransactionStatus m now id status errorMsg)) id
  = Ok (set_tx_status tx status errorMsg now).
Proof.
  intros Htx. unfold MockDB.UpdateTransactionStatus, MockDB.GetTransactionByID.
  rewrite Htx. simpl. by rewrite lookup_insert_eq.
Qed.




End MockDB_facts.

Section MockDB_service_facts.
Import gateway services.
Context {Ext S : Type} {selector : SelectorInterface Ext MockDB.t S}.
Context (time_Now : Ext → Time).
Implicit Types (w : World (Ext := Ext) (D := MockDB.t) (S := S)).




End MockDB_service_facts.





(** With no attempt allowed the executor does not run the operation and
    wraps a [nil] error. *)
Example RetryOperation_zero_attempts :
  utils.RetryOperation sample.time_Sleep sample.rand_Intn sample.failing_op 0
    sample.all_up
  = (Some (fmt_Errorf_nil "operation failed after 0 attempts"), sample.all_up).
Proof. reflexivity. Qed.

(** * Further properties of the code *)

(** ** The selector: registry and health marks *)

Section registry_facts.
Import gateway.
Context {Ext : Type}.
Implicit Types (s : Selector Ext) (x : Ext) (p : Provider Ext).

(** Providers are filed under their own identifier. *)
Lemma reachable_keyed s :
  reachable s → ∀ k p, providers s !! k = Some p → ID p = k.
Proof.
  induction 1 as [|s q _ IH|s id0 _ IH|s id0 _ IH]; intros k p; simpl;
    try apply IH.
  - by rewrite lookup_empty.
  - destruct (decide (ID q = k)) as [<-|Hne].
    + rewrite lookup_insert_eq. by intros [= ->].
    + rewrite lookup_insert_ne by done. apply IH.
Qed.

(** What the selection loop returns comes from an entry that qualifies. *)
Lemma select_loop_sound s x (l : list GatewayPriority) p :
  select_loop s x l = Ok p →
  ∃ gw, gw ∈ l ∧ qualifies s x gw = true ∧
        providers s !! Sprintf_d (gw_GatewayID gw) = Some p.
Proof.
  induction l as [|gw rest IH]; [done|].
  destruct (qualifies s x gw) eqn:Hq.
  - destruct (select_loop_hit s x gw rest Hq) as (q & Hq' & ->).
    intros [= ->]. exists gw. split_and!; [left|done..].
  - rewrite select_loop_skip by done. intros Hsel.
    destruct (IH Hsel) as (g & Hin & Hg & Hp). exists g.
    split_and!; [by right|done..].
Qed.

End registry_facts.

(** X1.  Registration followed by lookup: [GetProviderByID] finds a provider
    just registered under its identifier, the provider is healthy from then
    on whatever its health was before (a second registration under the same
    identifier replaces the first), and lookups and health flags of all other
    identifiers are as they were. *)
Theorem RegisterProvider_lookup {Ext : Type} (s : gateway.Selector Ext)
    (p : gateway.Provider Ext) :
  gateway.Selector_GetProviderByID (gateway.Selector_RegisterProvider s p)
    (gateway.ID p) = Ok p ∧
  gateway.healthStatus (gateway.Selector_RegisterProvider s p)
    !! gateway.ID p = Some true ∧
  ∀ id, id ≠ gateway.ID p →
    gateway.Selector_GetProviderByID (gateway.Selector_RegisterProvider s p) id
    = gateway.Selector_GetProviderByID s id ∧
    gateway.healthStatus (gateway.Selector_RegisterProvider s p) !! id
    = gateway.healthStatus s !! id.
Proof.
  unfold gateway.Selector_GetProviderByID. simpl. split_and!.
  - by rewrite lookup_insert_eq.
  - by rewrite lookup_insert_eq.
  - intros id Hne. by rewrite !lookup_insert_ne.
Qed.

(** X2.  On a selector built by registrations and marks, [GetProviderByID]
    answers with a provider exactly for the identifiers that have been
    registered; the provider it returns carries the identifier asked for and
    has a health flag; for every other identifier it fails with "provider
    with ID ... not found". *)
Theorem GetProviderByID_registered {Ext : Type} (s : gateway.Selector Ext)
    (id : string) :
  gateway.reachable s →
  (∀ p, gateway.Selector_GetProviderByID s id = Ok p →
        gateway.ID p = id ∧ gateway.providers s !! id = Some p ∧
        is_Some (gateway.healthStatus s !! id)) ∧
  (gateway.providers s !! id = None →
   gateway.Selector_GetProviderByID s id
   = Err (errors_New ("provider with ID " +:+ id +:+ " not found"))).
Proof.
  intros Hs. unfold gateway.Selector_GetProviderByID. split.
  - destruct (gateway.providers s !! id) as [q|] eqn:Hq; [|done].
    intros p [= ->]. split_and!; [|done|].
    + by apply (reachable_keyed s Hs id).
    + apply (reachable_health_entry s Hs). by rewrite Hq.
  - by intros ->.
Qed.

Lemma GetProviderByID_registered_witness :
  gateway.Selector_GetProviderByID sample.registered "2" = Ok sample.stripe ∧
  gateway.Selector_GetProviderByID sample.registered "9"
  = Err (errors_New "provider with ID 9 not found").
Proof.
  assert (Hreach : gateway.reachable sample.registered) by repeat constructor.
  split.
  - destruct (gateway.Selector_GetProviderByID sample.registered "2")
      as [p|e] eqn:Hget; [|vm_compute in Hget; discriminate].
    destruct (proj1 (GetProviderByID_registered sample.registered "2" Hreach)
                p Hget) as (_ & Hp & _).
    vm_compute in Hp. injection Hp as <-. vm_compute. reflexivity.
  - apply (proj2 (GetProviderByID_registered sample.registered "9" Hreach)).
    vm_compute. reflexivity.
Defined.



(** X4.  A provider marked down is never selected: on a selector built by
    registrations and marks, no [SelectGateway] call made after
    [MarkGatewayDown id] returns a provider whose identifier is [id],
    whatever the store, the region and the probe say. *)
Theorem marked_down_never_selected (sorter : SortSlice) {Ext D : Type}
    {store : DBInterface D} (s : gateway.Selector Ext) (id : string)
    (d : D) (x : Ext) (countryID : Z) (txType : string)
    (p : gateway.Provider Ext) :
  gateway.reachable s →
  gateway.Selector_SelectGateway (gateway.Selector_MarkGatewayDown s id)
    d x countryID txType = Ok p →
  gateway.ID p ≠ id.
Proof.
  intros Hs. unfold gateway.Selector_SelectGateway.
  destruct (GetGatewaysByPriority d countryID) as [gateways|err]; [|done].
  destruct (length gateways =? 0)%nat; [done|].
  intros Hsel. apply select_loop_sound in Hsel as (gw & _ & Hq & Hp).
  apply qualifies_true in Hq as (q & _ & Hh & _).
  simpl in Hp, Hh.
  apply (reachable_keyed s Hs) in Hp. intros <-.
  rewrite Hp, lookup_insert_eq in Hh. discriminate.
Qed.

Lemma marked_down_never_selected_witness :
  gateway.ID sample.stripe ≠ "1".
Proof.
  apply (marked_down_never_selected insertion_Slice sample.registered "1"
           (MockDB.NewMockDB 0) sample.all_up 1 "deposit").
  - repeat constructor.
  - vm_compute. reflexivity.
Defined.

(** X5.  Health marks are last-write-wins per identifier: a mark replaces an
    earlier mark of the same identifier, marking twice is marking once,
    marks of different identifiers commute, and [MarkGatewayUp] after
    [MarkGatewayDown] gives back the very selector one started from when the
    provider was healthy. *)
Theorem health_marks_compose {Ext : Type} (s : gateway.Selector Ext)
    (id id' : string) :
  gateway.Selector_MarkGatewayUp (gateway.Selector_MarkGatewayDown s id) id
  = gateway.Selector_MarkGatewayUp s id ∧
  gateway.Selector_MarkGatewayDown (gateway.Selector_MarkGatewayUp s id) id
  = gateway.Selector_MarkGatewayDown s id ∧
  gateway.Selector_MarkGatewayDown (gateway.Selector_MarkGatewayDown s id) id
  = gateway.Selector_MarkGatewayDown s id ∧
  (id ≠ id' →
   gateway.Selector_MarkGatewayDown (gateway.Selector_MarkGatewayUp s id) id'
   = gateway.Selector_MarkGatewayUp (gateway.Selector_MarkGatewayDown s id') id) ∧
  (gateway.healthStatus s !! id = Some true →
   gateway.Selector_MarkGatewayUp (gateway.Selector_MarkGatewayDown s id) id
   = s).
Proof.
  unfold gateway.Selector_MarkGatewayUp, gateway.Selector_MarkGatewayDown.
  simpl. split_and!.
  - by rewrite insert_insert_eq.
  - by rewrite insert_insert_eq.
  - by rewrite insert_insert_eq.
  - intros Hne. f_equal. by apply insert_insert_ne.
  - intros Hh. rewrite insert_insert_eq, insert_id by done. by destruct s.
Qed.

Lemma RegisterProvider_lookup_witness :
  gateway.Selector_GetProviderByID
    (gateway.Selector_RegisterProvider sample.registered sample.stripe) "1"
  = gateway.Selector_GetProviderByID sample.registered "1".
Proof.
  apply (proj2 (proj2 (RegisterProvider_lookup sample.registered
                         sample.stripe)) "1").
  discriminate.
Defined.

Lemma health_marks_compose_witness :
  gateway.Selector_MarkGatewayUp
    (gateway.Selector_MarkGatewayDown sample.registered "1") "1"
  = sample.registered.
Proof.
  destruct (health_marks_compose sample.registered "1" "2")
    as (_ & _ & _ & _ & Hback).
  apply Hback. vm_compute. reflexivity.
Defined.

(** ** The in-memory store *)

Section store_facts.
Implicit Types (m : MockDB.t) (tx : Transaction).

Lemma NewMockDB_well_formed (now : Time) :
  MockDB_state.well_formed (MockDB.NewMockDB now).
Proof. split; [simpl; lia|]. intros id tx. simpl. by rewrite lookup_empty. Qed.

Lemma UpdateTransactionStatus_well_formed m (now : Time) (id : Z)
    (status errorMsg : string) :
  MockDB_state.well_formed m →
  MockDB_state.well_formed
    (snd (MockDB.UpdateTransactionStatus m now id status errorMsg)).
Proof.
  intros [Hc Hm]. unfold MockDB.UpdateTransactionStatus.
  destruct (MockDB.transactions m !! id) as [tx|] eqn:Htx; [|done].
  split; [done|].
  intros id' tx'. simpl. destruct (decide (id = id')) as [<-|Hne].
  - rewrite lookup_insert_eq. intros [= <-]. simpl. by apply Hm.
  - rewrite lookup_insert_ne by done. apply Hm.
Qed.

Lemma UpdateTransactionReference_well_formed m (now : Time) (id : Z)
    (referenceID : string) :
  MockDB_state.well_formed m →
  MockDB_state.well_formed
    (snd (MockDB.UpdateTransactionReference m now id referenceID)).
Proof.
  intros [Hc Hm]. unfold MockDB.UpdateTransactionReference.
  destruct (MockDB.transactions m !! id) as [tx|] eqn:Htx; [|done].
  split; [done|].
  intros id' tx'. simpl. destruct (decide (id = id')) as [<-|Hne].
  - rewrite lookup_insert_eq. intros [= <-]. simpl. by apply Hm.
  - rewrite lookup_insert_ne by done. apply Hm.
Qed.

Lemma wrap_int_small (z : Z) : - 2 ^ 63 ≤ z < 2 ^ 63 → wrap_int z = z.
Proof.
  intros Hz. unfold wrap_int. rewrite Z.mod_small by lia. lia.
Qed.

End store_facts.

(** X6.  [CreateTransaction] on a well-formed store whose counter is below
    the largest [int]: it returns the counter as the new identifier, no record
    had that identifier before, the record can be read back under it with
    [ID] set to it, [CreatedAt] filled in when it was zero and every other
    field as handed in; records under other identifiers read as before, the
    counter moves up by one and the store stays well-formed. *)
Theorem CreateTransaction_fresh (m : MockDB.t) (now : Time)
    (transaction : Transaction) :
  MockDB_state.well_formed m →
  MockDB.nextTxID m < 2 ^ 63 - 1 →
  ∃ m' stored,
    MockDB.CreateTransaction m now transaction = (Ok (MockDB.nextTxID m), m') ∧
    MockDB.GetTransactionByID m (MockDB.nextTxID m) = Err ErrNoRows ∧
    MockDB.GetTransactionByID m' (MockDB.nextTxID m) = Ok stored ∧
    stored
    = set_tx_CreatedAt (set_tx_ID transaction (MockDB.nextTxID m))
        (if tx_CreatedAt transaction =? 0 then now
         else tx_CreatedAt transaction) ∧
    (∀ id, id ≠ MockDB.nextTxID m →
       MockDB.GetTransactionByID m' id = MockDB.GetTransactionByID m id) ∧
    MockDB.nextTxID m' = MockDB.nextTxID m + 1 ∧
    MockDB_state.well_formed m'.
Proof.
  intros [Hc Hm] Hnext.
  assert (Hfresh : MockDB.transactions m !! MockDB.nextTxID m = None).
  { destruct (MockDB.transactions m !! MockDB.nextTxID m) as [tx|] eqn:Htx;
      [|done]. apply Hm in Htx. lia. }
  assert (Hwrap : wrap_int (MockDB.nextTxID m + 1) = MockDB.nextTxID m + 1)
    by (apply wrap_int_small; lia).
  eexists _, _. unfold MockDB.CreateTransaction, MockDB.GetTransactionByID.
  split; [reflexivity|]. simpl. rewrite Hfresh, lookup_insert_eq.
  split_and!; try reflexivity.
  - destruct (tx_CreatedAt transaction =? 0); [reflexivity|].
    by destruct transaction.
  - intros id Hne. by rewrite lookup_insert_ne.
  - done.
  - split; [simpl; rewrite Hwrap; lia|].
    intros id tx. simpl. destruct (decide (MockDB.nextTxID m = id)) as [<-|Hne].
    + rewrite lookup_insert_eq. intros [= <-]. rewrite Hwrap.
      destruct (tx_CreatedAt transaction =? 0); simpl; lia.
    + rewrite lookup_insert_ne by done. intros Htx%Hm. rewrite Hwrap. lia.
Qed.

Lemma CreateTransaction_fresh_witness :
  ∃ m' stored,
    MockDB.CreateTransaction (MockDB.NewMockDB 0) 77
      {| tx_ID := 0; tx_Amount := 100; tx_Currency := "USD";
         tx_Type := "deposit"; tx_Status := "pending"; tx_UserID := 1;
         tx_GatewayID := 2; tx_CountryID := 1; tx_ReferenceID := "";
         tx_ErrorMessage := ""; tx_CreatedAt := 0; tx_UpdatedAt := 0 |}
    = (Ok 1, m') ∧
    MockDB.GetTransactionByID m' 1 = Ok stored ∧
    tx_ID stored = 1 ∧ tx_CreatedAt stored = 77 ∧
    MockDB.nextTxID m' = 2.
Proof.
  destruct (CreateTransaction_fresh (MockDB.NewMockDB 0) 77
              {| tx_ID := 0; tx_Amount := 100; tx_Currency := "USD";
                 tx_Type := "deposit"; tx_Status := "pending"; tx_UserID := 1;
                 tx_GatewayID := 2; tx_CountryID := 1; tx_ReferenceID := "";
                 tx_ErrorMessage := ""; tx_CreatedAt := 0; tx_UpdatedAt := 0 |}
              (NewMockDB_well_formed 0))
    as (m' & stored & Hc & _ & Hget & -> & _ & Hn & _).
  - simpl. lia.
  - exists m'. eexists. split_and!; [exact Hc|exact Hget|reflexivity..|exact Hn].
Defined.

(** X7.  [UpdateTransactionStatus] and [UpdateTransactionReference] for an
    identifier without a record fail with "transaction not found" and leave
    the store as it is.  For an identifier with a record they succeed and
    touch that record only: the first sets [Status], [ErrorMessage] and
    [UpdatedAt], the second [ReferenceID] and [UpdatedAt]; all other records,
    the counter, the users and the priority lists are unchanged. *)
Theorem MockDB_updates_local (m : MockDB.t) (now : Time) (id : Z)
    (status errorMsg referenceID : string) :
  (MockDB.transactions m !! id = None →
   MockDB.UpdateTransactionStatus m now id status errorMsg
   = (Some (errors_New "transaction not found"), m) ∧
   MockDB.UpdateTransactionReference m now id referenceID
   = (Some (errors_New "transaction not found"), m)) ∧
  (∀ tx, MockDB.transactions m !! id = Some tx →
     ∃ m1 m2,
       MockDB.UpdateTransactionStatus m now id status errorMsg = (None, m1) ∧
       MockDB.UpdateTransactionReference m now id referenceID = (None, m2) ∧
       MockDB.GetTransactionByID m1 id
       = Ok (set_tx_status tx status errorMsg now) ∧
       MockDB.GetTransactionByID m2 id
       = Ok (set_tx_reference tx referenceID now) ∧
       (∀ id', id' ≠ id →
          MockDB.GetTransactionByID m1 id' = MockDB.GetTransactionByID m id' ∧
          MockDB.GetTransactionByID m2 id' = MockDB.GetTransactionByID m id') ∧
       MockDB.nextTxID m1 = MockDB.nextTxID m ∧
       MockDB.nextTxID m2 = MockDB.nextTxID m ∧
       MockDB.users m1 = MockDB.users m ∧ MockDB.users m2 = MockDB.users m ∧
       MockDB.gatewaysByCountry m1 = MockDB.gatewaysByCountry m ∧
       MockDB.gatewaysByCountry m2 = MockDB.gatewaysByCountry m).
Proof.
  unfold MockDB.UpdateTransactionStatus, MockDB.UpdateTransactionReference,
    MockDB.GetTransactionByID.
  split.
  - by intros ->.
  - intros tx ->. eexists _, _.
    split; [reflexivity|]. split; [reflexivity|].
    simpl. rewrite !lookup_insert_eq.
    split_and!; try reflexivity.
    intros id' Hne. by rewrite !lookup_insert_ne.
Qed.

Lemma MockDB_updates_local_witness :
  MockDB.UpdateTransactionStatus (MockDB.NewMockDB 0) 5 123 "completed" ""
  = (Some (errors_New "transaction not found"), MockDB.NewMockDB 0).
Proof.
  apply (proj1 (MockDB_updates_local (MockDB.NewMockDB 0) 5 123
                  "completed" "" "")).
  reflexivity.
Defined.

(** X8.  A status update and a reference update of the same record do not
    undo each other: in either order the record ends with the new status, the
    new error message and the new reference, every other field but
    [UpdatedAt] as before, and [UpdatedAt] is the time of the later update. *)
Theorem status_and_reference_commute (m : MockDB.t) (t1 t2 : Time) (id : Z)
    (status errorMsg referenceID : string) (tx : Transaction) :
  MockDB.transactions m !! id = Some tx →
  MockDB.GetTransactionByID
    (snd (MockDB.UpdateTransactionReference
            (snd (MockDB.UpdateTransactionStatus m t1 id status errorMsg))
            t2 id referenceID)) id
  = Ok (set_tx_reference (set_tx_status tx status errorMsg t2) referenceID t2) ∧
  MockDB.GetTransactionByID
    (snd (MockDB.UpdateTransactionStatus
            (snd (MockDB.UpdateTransactionReference m t1 id referenceID))
            t2 id status errorMsg)) id
  = Ok (set_tx_reference (set_tx_status tx status errorMsg t2) referenceID t2).
Proof.
  intros Htx.
  unfold MockDB.UpdateTransactionStatus, MockDB.UpdateTransactionReference,
    MockDB.GetTransactionByID.
  rewrite Htx. simpl. rewrite !lookup_insert_eq. simpl.
  rewrite !lookup_insert_eq. done.
Qed.

Lemma status_and_reference_commute_witness :
  let m := snd (MockDB.CreateTransaction (MockDB.NewMockDB 0) 77
                  {| tx_ID := 0; tx_Amount := 100; tx_Currency := "USD";
                     tx_Type := "deposit"; tx_Status := "pending";
                     tx_UserID := 1; tx_GatewayID := 2; tx_CountryID := 1;
                     tx_ReferenceID := ""; tx_ErrorMessage := "";
                     tx_CreatedAt := 0; tx_UpdatedAt := 0 |}) in
  ∃ tx,
    MockDB.GetTransactionByID
      (snd (MockDB.UpdateTransactionReference
              (snd (MockDB.UpdateTransactionStatus m 80 1 "completed" ""))
              90 1 "ref-1")) 1 = Ok tx ∧
    tx_Status tx = "completed" ∧ tx_ReferenceID tx = "ref-1" ∧
    tx_UpdatedAt tx = 90.
Proof.
  intros m.
  destruct (status_and_reference_commute m 80 90 1 "completed" "" "ref-1"
              {| tx_ID := 1; tx_Amount := 100; tx_Currency := "USD";
                 tx_Type := "deposit"; tx_Status := "pending";
                 tx_UserID := 1; tx_GatewayID := 2; tx_CountryID := 1;
                 tx_ReferenceID := ""; tx_ErrorMessage := "";
                 tx_CreatedAt := 77; tx_UpdatedAt := 0 |}) as [H1 _].
  - vm_compute. reflexivity.
  - eexists. split; [exact H1|]. split_and!; reflexivity.
Defined.

(** ** The transaction service: how the parts compose *)

Section service_composition.
Import gateway services.
Context {Ext S : Type} {selector : SelectorInterface Ext MockDB.t S}.
Context (time_Now : Ext → Time).
Implicit Types (w : World (Ext := Ext) (D := MockDB.t) (S := S)).

(** A call through the breaker that returns [nil] has run the operation. *)
Lemma breaker_nil_ran {St : Type} (now : St → Time)
    (cb cb' : utils.CircuitBreaker) (gatewayID : string)
    (op : St → option error * St) (s s' : St) :
  utils.ExecuteWithCircuitBreaker now cb gatewayID op s = (None, cb', s') →
  op s = (None, s').
Proof.
  intros Hrun.
  by apply ExecuteWithCircuitBreaker_cases in Hrun as [[_ [?|?]]|Hop].
Qed.

(** The whole of [process] once the user is known and a gateway selected,
    in terms of what the call through the breaker returns. *)
Lemma process_unfold (txType kind : string)
    (call : Provider Ext → Transaction → Ext →
            result (option TransactionResponse) * Ext)
    w (req : TransactionRequest) (user : User) (provider : Provider Ext) :
  GetUserByID (db w) (req_UserID req) = Ok user →
  SelectGateway (gatewaySelector w) (db w) (ext w) (u_CountryID user) txType
  = Ok provider →
  let id := MockDB.nextTxID (db w) in
  let transaction :=
    set_tx_ID (services_paths.new_transaction kind req user
                 (atoi (ID provider)) (time_Now (ext w))) id in
  let d1 := snd (MockDB.CreateTransaction (db w) (time_Now (ext w))
                   (services_paths.new_transaction kind req user
                      (atoi (ID provider)) (time_Now (ext w)))) in
  MockDB.transactions d1 !! id = Some transaction ∧
  ∀ err cb d x r,
    utils.ExecuteWithCircuitBreaker (op_time_Now time_Now) (circuitBreaker w)
      (ID provider) (operation time_Now (call provider) transaction)
      (d1, ext w, None) = (err, cb, (d, x, r)) →
    process time_Now txType kind call w req
    = match err with
      | Some e =>
          (Err e,
           {| db := snd (MockDB.UpdateTransactionStatus d (time_Now x) id
                           "failed" (Error e));
              gatewaySelector := MarkGatewayDown (gatewaySelector w)
                                   (ID provider);
              circuitBreaker := cb; ext := x; goroutines := goroutines w |})
      | None =>
          (Ok r,
           {| db := snd (MockDB.UpdateTransactionStatus d (time_Now x) id
                           "processing" "");
              gatewaySelector := gatewaySelector w;
              circuitBreaker := cb; ext := x;
              goroutines :=
                goroutines w ++ [(transaction, DataFormat provider)] |})
      end.
Proof.
  intros Huser Hsel id transaction d1. split.
  - subst d1 transaction. unfold MockDB.CreateTransaction. simpl.
    rewrite lookup_insert_eq.
    destruct (time_Now (ext w) =? 0) eqn:Hz; [|done].
    apply Z.eqb_eq in Hz. unfold services_paths.new_transaction.
    by rewrite Hz.
  - intros err cb d x r Hrun.
    assert (Hconv :
      process time_Now txType kind call w req
      = let '(err, cb, (d, x, r)) :=
          utils.ExecuteWithCircuitBreaker (op_time_Now time_Now)
            (circuitBreaker w) (ID provider)
            (operation time_Now (call provider) transaction)
            (d1, ext w, None) in
        match err with
        | Some e =>
            (Err e,
             {| db := snd (MockDB.UpdateTransactionStatus d (time_Now x) id
                             "failed" (Error e));
                gatewaySelector := MarkGatewayDown (gatewaySelector w)
                                     (ID provider);
                circuitBreaker := cb; ext := x; goroutines := goroutines w |})
        | None =>
            (Ok r,
             {| db := snd (MockDB.UpdateTransactionStatus d (time_Now x) id
                             "processing" "");
                gatewaySelector := gatewaySelector w;
                circuitBreaker := cb; ext := x;
                goroutines :=
                  goroutines w ++ [(transaction, DataFormat provider)] |})
        end).
    { unfold process. rewrite Huser, Hsel. reflexivity. }
    rewrite Hconv, Hrun. reflexivity.
Qed.

(** The success path of [process]. *)
Lemma process_success (txType kind : string)
    (call : Provider Ext → Transaction → Ext →
            result (option TransactionResponse) * Ext)
    w (req : TransactionRequest) (user : User) (provider : Provider Ext)
    (response : option TransactionResponse) w' :
  GetUserByID (db w) (req_UserID req) = Ok user →
  SelectGateway (gatewaySelector w) (db w) (ext w) (u_CountryID user) txType
  = Ok provider →
  process time_Now txType kind call w req = (Ok response, w') →
  let id := MockDB.nextTxID (db w) in
  let transaction :=
    set_tx_ID (services_paths.new_transaction kind req user
                 (atoi (ID provider)) (time_Now (ext w))) id in
  call provider transaction (ext w) = (Ok response, ext w') ∧
  gatewaySelector w' = gatewaySelector w ∧
  goroutines w' = goroutines w ++ [(transaction, DataFormat provider)] ∧
  MockDB.GetTransactionByID (db w') id
  = Ok (set_tx_status
          (if String.eqb (services_paths.saved_reference response) ""
           then transaction
           else set_tx_reference transaction
                  (services_paths.saved_reference response)
                  (time_Now (ext w')))
          "processing" "" (time_Now (ext w'))).
Proof.
  intros Huser Hsel Hrun id transaction.
  destruct (process_unfold txType kind call w req user provider Huser Hsel)
    as [Hstored Hproc].
  fold id transaction in Hstored, Hproc.
  set (d1 := snd (MockDB.CreateTransaction _ _ _)) in Hstored, Hproc.
  clearbody d1.
  destruct (utils.ExecuteWithCircuitBreaker (op_time_Now time_Now)
              (circuitBreaker w) (ID provider)
              (operation time_Now (call provider) transaction)
              (d1, ext w, None)) as [[err cb] [[d x] r]] eqn:Hexec.
  rewrite (Hproc _ _ _ _ _ eq_refl) in Hrun. clear Hproc.
  destruct err as [e|]; [discriminate|]. injection Hrun as <- <-.
  apply breaker_nil_ran in Hexec. unfold operation in Hexec.
  destruct (call provider transaction (ext w)) as [[resp|perr] x1];
    [|discriminate].
  injection Hexec as <- <- <-. simpl.
  split_and!; [done..|].
  unfold services_paths.saved_reference.
  destruct resp as [resp|]; simpl.
  - destruct ((0 <? resp_TransactionID resp)
              && negb (String.eqb (resp_RedirectURL resp) "")) eqn:Hsave.
    + apply andb_true_iff in Hsave as [_ Hurl].
      apply negb_true_iff in Hurl. rewrite Hurl.
      cbn [UpdateTransactionReference MockDB_DBInterface].
      unfold MockDB.UpdateTransactionReference. rewrite Hstored.
      simpl snd. apply UpdateTransactionStatus_hit. simpl.
      subst transaction. simpl. by rewrite lookup_insert_eq.
    + rewrite String.eqb_refl. by apply UpdateTransactionStatus_hit.
  - by apply UpdateTransactionStatus_hit.
Qed.


(** What the success path leaves behind, field by field. *)
Lemma process_success_record (txType kind : string)
    (call : Provider Ext → Transaction → Ext →
            result (option TransactionResponse) * Ext)
    w (req : TransactionRequest) (user : User) (provider : Provider Ext)
    (response : option TransactionResponse) w' :
  GetUserByID (db w) (req_UserID req) = Ok user →
  SelectGateway (gatewaySelector w) (db w) (ext w) (u_CountryID user) txType
  = Ok provider →
  process time_Now txType kind call w req = (Ok response, w') →
  gatewaySelector w' = gatewaySelector w ∧
  (∃ queued,
     goroutines w' = goroutines w ++ [(queued, DataFormat provider)] ∧
     call provider queued (ext w) = (Ok response, ext w') ∧
     tx_ID queued = MockDB.nextTxID (db w) ∧
     tx_Status queued = "pending" ∧ tx_ReferenceID queued = "") ∧
  ∃ tx,
    MockDB.GetTransactionByID (db w') (MockDB.nextTxID (db w)) = Ok tx ∧
    tx_Status tx = "processing" ∧ tx_ErrorMessage tx = "" ∧
    tx_ReferenceID tx = services_paths.saved_reference response ∧
    tx_Type tx = kind ∧ tx_Amount tx = req_Amount req ∧
    tx_Currency tx = req_Currency req ∧ tx_UserID tx = u_ID user ∧
    tx_CountryID tx = u_CountryID user ∧
    tx_GatewayID tx = atoi (ID provider).
Proof.
  intros Huser Hsel Hrun.
  destruct (process_success txType kind call w req user provider response w'
              Huser Hsel Hrun) as (Hcall & Hselector & Hqueue & Hrecord).
  split; [exact Hselector|]. split.
  - eexists. split; [exact Hqueue|]. split; [exact Hcall|]. done.
  - eexists. split; [exact Hrecord|].
    destruct (String.eqb_spec (services_paths.saved_reference response) "")
      as [Hempty|_]; [rewrite Hempty|]; done.
Qed.

End service_composition.

(** X9.  When [ProcessDeposit] or [ProcessWithdrawal] returns a response over
    the in-memory store, the selector is as before, the provider has been run
    once, on the new record and from the state the service was entered in,
    and the stored record has status [processing], no error message, the
    fields of the request and of the user, and as reference the redirect URL
    of the response when that has a positive transaction id and a URL, else
    none. *)
Theorem process_success_stored {Ext S : Type}
    {selector : gateway.SelectorInterface Ext MockDB.t S}
    (time_Now : Ext → Time)
    (w : services.World (Ext := Ext) (D := MockDB.t) (S := S))
    (req : TransactionRequest) (user : User) :
  GetUserByID (services.db w) (req_UserID req) = Ok user →
  (∀ provider response w',
     gateway.SelectGateway (services.gatewaySelector w) (services.db w)
       (services.ext w) (u_CountryID user) "deposit" = Ok provider →
     services.ProcessDeposit time_Now w req = (Ok response, w') →
     services.gatewaySelector w' = services.gatewaySelector w ∧
     ∃ tx,
       MockDB.GetTransactionByID (services.db w')
         (MockDB.nextTxID (services.db w)) = Ok tx ∧
       gateway.ProcessDeposit provider
         (set_tx_ID (services_paths.new_transaction consts.Deposit req user
                       (services.atoi (gateway.ID provider))
                       (time_Now (services.ext w)))
            (MockDB.nextTxID (services.db w)))
         (services.ext w) = (Ok response, services.ext w') ∧
       tx_Status tx = "processing" ∧ tx_ErrorMessage tx = "" ∧
       tx_ReferenceID tx = services_paths.saved_reference response ∧
       tx_Type tx = "deposit" ∧ tx_Amount tx = req_Amount req ∧
       tx_Currency tx = req_Currency req ∧ tx_UserID tx = u_ID user ∧
       tx_CountryID tx = u_CountryID user ∧
       tx_GatewayID tx = services.atoi (gateway.ID provider)) ∧
  (∀ provider response w',
     gateway.SelectGateway (services.gatewaySelector w) (services.db w)
       (services.ext w) (u_CountryID user) "withdrawal" = Ok provider →
     services.ProcessWithdrawal time_Now w req = (Ok response, w') →
     services.gatewaySelector w' = services.gatewaySelector w ∧
     ∃ tx,
       MockDB.GetTransactionByID (services.db w')
         (MockDB.nextTxID (services.db w)) = Ok tx ∧
       gateway.ProcessWithdrawal provider
         (set_tx_ID (services_paths.new_transaction consts.Withdrawal req user
                       (services.atoi (gateway.ID provider))
                       (time_Now (services.ext w)))
            (MockDB.nextTxID (services.db w)))
         (services.ext w) = (Ok response, services.ext w') ∧
       tx_Status tx = "processing" ∧ tx_ErrorMessage tx = "" ∧
       tx_ReferenceID tx = services_paths.saved_reference response ∧
       tx_Type tx = "withdrawal" ∧ tx_Amount tx = req_Amount req ∧
       tx_Currency tx = req_Currency req ∧ tx_UserID tx = u_ID user ∧
       tx_CountryID tx = u_CountryID user ∧
       tx_GatewayID tx = services.atoi (gateway.ID provider)).
Proof.
  intros Huser. split; intros provider response w' Hsel Hrun.
  - destruct (process_success time_Now _ _ _ w req user provider response w'
                Huser Hsel Hrun) as (Hcall & _ & _ & _).
    destruct (process_success_record time_Now _ _ _ w req user provider
                response w' Huser Hsel Hrun) as (Hselector & _ & tx & Htx).
    split; [exact Hselector|]. exists tx.
    destruct Htx as (? & ? & ? & ? & ? & ? & ? & ? & ? & ?).
    split_and!; done.
  - destruct (process_success time_Now _ _ _ w req user provider response w'
                Huser Hsel Hrun) as (Hcall & _ & _ & _).
    destruct (process_success_record time_Now _ _ _ w req user provider
                response w' Huser Hsel Hrun) as (Hselector & _ & tx & Htx).
    split; [exact Hselector|]. exists tx.
    destruct Htx as (? & ? & ? & ? & ? & ? & ? & ? & ? & ?).
    split_and!; done.
Qed.

Lemma process_success_stored_witness :
  let w := sample.wired sample.all_up in
  let out := services.ProcessDeposit (selector := sample.wired_selector)
               sample.time_Now w (sample.request 1) in
  gateway.healthStatus (services.gatewaySelector (snd out))
  = gateway.healthStatus (services.gatewaySelector w) ∧
  ∃ tx,
    MockDB.GetTransactionByID (services.db (snd out)) 1 = Ok tx ∧
    tx_Status tx = "processing" ∧
    tx_ReferenceID tx = "https://PayPal.example.com/payment/PayPal-1" ∧
    tx_GatewayID tx = 1.
Proof.
  intros w out.
  assert (Huser : GetUserByID (services.db w) (req_UserID (sample.request 1))
                  = Ok (MockDB.sample_user 1 "user1" "user1@example.com" 1 0))
    by (vm_compute; reflexivity).
  assert (Hsel : gateway.SelectGateway (SelectorInterface := sample.wired_selector)
                   (services.gatewaySelector w) (services.db w)
                   (services.ext w) 1 "deposit" = Ok sample.paypal)
    by (vm_compute; reflexivity).
  destruct (process_success_stored (selector := sample.wired_selector)
              sample.time_Now w (sample.request 1) _ Huser) as [Hdeposit _].
  destruct (Hdeposit sample.paypal
              (match fst out with Ok r => r | Err _ => None end) (snd out)
              Hsel)
    as (Hselector & tx & Htx & _ & Hst & _ & Href & _ & _ & _ & _ & _ & Hgw).
  { vm_compute. reflexivity. }
  split; [by rewrite Hselector|]. exists tx.
  split_and!; [exact Htx|exact Hst| |].
  - rewrite Href. vm_compute. reflexivity.
  - rewrite Hgw. vm_compute. reflexivity.
Defined.








(** X13.  A callback for a transaction the in-memory store does not hold
    changes nothing at all: [HandleCallback] returns "transaction not found"
    wrapped, and the service is exactly as before; in particular no record
    is created and the gateway named by the callback is not marked up. *)
Theorem callback_unknown_transaction {Ext S : Type}
    {selector : gateway.SelectorInterface Ext MockDB.t S}
    (time_Now : Ext → Time)
    (w : services.World (Ext := Ext) (D := MockDB.t) (S := S))
    (callbackData : CallbackData) :
  MockDB.transactions (services.db w) !! cb_TransactionID callbackData = None →
  services.HandleCallback time_Now w callbackData
  = (Some (fmt_Errorf "failed to update transaction"
             (errors_New "transaction not found")), w).
Proof.
  intros Hnone. unfold services.HandleCallback.
  cbn [UpdateTransactionStatus MockDB_DBInterface].
  unfold MockDB.UpdateTransactionStatus. rewrite Hnone. by destruct w.
Qed.

Lemma callback_unknown_transaction_witness :
  services.HandleCallback (selector := sample.wired_selector) sample.time_Now
    (sample.wired sample.all_up) (sample.callback 123 "completed" "1")
  = (Some (fmt_Errorf "failed to update transaction"
             (errors_New "transaction not found")),
     sample.wired sample.all_up).
Proof.
  apply (callback_unknown_transaction (selector := sample.wired_selector)
           sample.time_Now (sample.wired sample.all_up)
           (sample.callback 123 "completed" "1")).
  vm_compute. reflexivity.
Defined.

(** X14.  A callback for a stored transaction overwrites its status with the
    status of the callback as it is, whatever the record said before and
    whatever string the callback carries; the error message becomes the
    message of the callback, or empty for [completed] and [processing]; the
    update time is the current time.  The reference, the gateway and the
    other fields of the record stay, so the reference carried by the callback
    is not stored; the other records, the breakers, the external state and
    the queued publications are untouched. *)
Theorem callback_overwrites_status {Ext S : Type}
    {selector : gateway.SelectorInterface Ext MockDB.t S}
    (time_Now : Ext → Time)
    (w : services.World (Ext := Ext) (D := MockDB.t) (S := S))
    (callbackData : CallbackData) (tx : Transaction) :
  MockDB.transactions (services.db w) !! cb_TransactionID callbackData
  = Some tx →
  ∃ w',
    services.HandleCallback time_Now w callbackData = (None, w') ∧
    MockDB.GetTransactionByID (services.db w') (cb_TransactionID callbackData)
    = Ok (set_tx_status tx (cb_Status callbackData)
            (if bool_decide (cb_Status callbackData = "completed"
                             ∨ cb_Status callbackData = "processing")
             then "" else cb_Message callbackData)
            (time_Now (services.ext w))) ∧
    (∀ id, id ≠ cb_TransactionID callbackData →
       MockDB.GetTransactionByID (services.db w') id
       = MockDB.GetTransactionByID (services.db w) id) ∧
    MockDB.nextTxID (services.db w') = MockDB.nextTxID (services.db w) ∧
    services.circuitBreaker w' = services.circuitBreaker w ∧
    services.ext w' = services.ext w ∧
    services.goroutines w' = services.goroutines w.
Proof.
  intros Htx. unfold services.HandleCallback.
  rewrite callback_errorMsg_cases.
  cbn [UpdateTransactionStatus MockDB_DBInterface].
  unfold MockDB.UpdateTransactionStatus. rewrite Htx.
  eexists. split; [reflexivity|]. simpl.
  unfold MockDB.GetTransactionByID. simpl. rewrite lookup_insert_eq.
  split_and!; try reflexivity.
  intros id Hne. by rewrite lookup_insert_ne.
Qed.

Lemma callback_overwrites_status_witness :
  let w := snd (services.ProcessDeposit (selector := sample.wired_selector)
                  sample.time_Now (sample.wired sample.all_up)
                  (sample.request 1)) in
  ∃ w' tx,
    services.HandleCallback (selector := sample.wired_selector)
      sample.time_Now w (sample.callback 1 "refunded" "1") = (None, w') ∧
    MockDB.GetTransactionByID (services.db w') 1 = Ok tx ∧
    tx_Status tx = "refunded" ∧ tx_ErrorMessage tx = "reported by gateway" ∧
    tx_ReferenceID tx = "https://PayPal.example.com/payment/PayPal-1".
Proof.
  intros w.
  assert (Htx : ∃ tx,
             MockDB.transactions (services.db w)
               !! cb_TransactionID (sample.callback 1 "refunded" "1")
             = Some tx ∧
             tx_ReferenceID tx
             = "https://PayPal.example.com/payment/PayPal-1").
  { eexists. split; vm_compute; reflexivity. }
  destruct Htx as (tx & Htx & Href). clearbody w.
  destruct (callback_overwrites_status (selector := sample.wired_selector)
              sample.time_Now w (sample.callback 1 "refunded" "1") tx Htx)
    as (w' & Hrun & Hget & _).
  exists w'. eexists. split; [exact Hrun|]. split; [exact Hget|].
  simpl. split_and!; [reflexivity|reflexivity|exact Href].
Defined.

Section breaker_table.
Context {St : Type} (time_Now : St → Time).

(** [ExecuteWithCircuitBreaker] runs [Execute] on the breaker [GetBreaker]
    hands out and stores what it leaves under the same identifier. *)
Lemma ExecuteWithCircuitBreaker_single (cb : utils.CircuitBreaker)
    (gatewayID : string) (operation : St → option error * St) (s : St) :
  utils.ExecuteWithCircuitBreaker time_Now cb gatewayID operation s
  = (fst (fst (gobreaker.Execute time_Now
                 (fst (utils.GetBreaker time_Now cb gatewayID s)) operation s)),
     {| utils.breakers :=
          <[gatewayID :=
              snd (fst (gobreaker.Execute time_Now
                          (fst (utils.GetBreaker time_Now cb gatewayID s))
                          operation s))]> (utils.breakers cb) |},
     snd (gobreaker.Execute time_Now
            (fst (utils.GetBreaker time_Now cb gatewayID s)) operation s)).
Proof.
  unfold utils.ExecuteWithCircuitBreaker, utils.GetBreaker.
  destruct (utils.breakers cb !! gatewayID) as [b|]; simpl.
  - by destruct (gobreaker.Execute _ _ _ _) as [[e b'] s1].
  - destruct (gobreaker.Execute _ _ _ _) as [[e b'] s1]. simpl.
    by rewrite insert_insert_eq.
Qed.

End breaker_table.

(** X15.  Breakers are kept per gateway identifier.  A call for one gateway
    leaves the breakers of all other identifiers as they are and leaves a
    breaker for its own identifier; what the call returns, the state it
    leaves and the breaker it leaves for its gateway depend on the table
    only through the entry of that gateway, so the failures of one gateway
    never reject a call for another. *)
Theorem breakers_per_gateway {St : Type} (time_Now : St → Time)
    (cb : utils.CircuitBreaker) (gatewayID : string)
    (operation : St → option error * St) (s : St) :
  let out := utils.ExecuteWithCircuitBreaker time_Now cb gatewayID operation
               s in
  (∀ other, other ≠ gatewayID →
     utils.breakers (snd (fst out)) !! other = utils.breakers cb !! other) ∧
  is_Some (utils.breakers (snd (fst out)) !! gatewayID) ∧
  ∀ cb2, utils.breakers cb2 !! gatewayID = utils.breakers cb !! gatewayID →
    let out2 := utils.ExecuteWithCircuitBreaker time_Now cb2 gatewayID
                  operation s in
    fst (fst out2) = fst (fst out) ∧ snd out2 = snd out ∧
    utils.breakers (snd (fst out2)) !! gatewayID
    = utils.breakers (snd (fst out)) !! gatewayID.
Proof.
  intros out. subst out. rewrite ExecuteWithCircuitBreaker_single. simpl.
  split_and!.
  - intros other Hne. by rewrite lookup_insert_ne.
  - rewrite lookup_insert_eq. by eexists.
  - intros cb2 Hsame. rewrite ExecuteWithCircuitBreaker_single. simpl.
    assert (Hget : fst (utils.GetBreaker time_Now cb2 gatewayID s)
                   = fst (utils.GetBreaker time_Now cb gatewayID s)).
    { unfold utils.GetBreaker. rewrite Hsame.
      by destruct (utils.breakers cb !! gatewayID). }
    rewrite Hget, !lookup_insert_eq. done.
Qed.

Section breaker_window.
Context {St : Type} (time_Now : St → Time).
Import breaker_state.

Lemma wrap_uint32_small (z : Z) : 0 ≤ z < 2 ^ 32 → wrap_uint32 z = z.
Proof. intros Hz. unfold wrap_uint32. by apply Z.mod_small. Qed.

Lemma currentState_closed_below (n : Z) (b : gobreaker.CircuitBreaker)
    (now : Time) :
  0 ≤ n → closed_below n b → closed_below n (gobreaker.currentState b now).
Proof.
  intros Hn (Hconf & Hclosed & Hreq). unfold gobreaker.currentState.
  rewrite Hclosed. destruct (_ && _); [|done].
  split; [done|]. simpl. split; [done|lia].
Qed.

Lemma afterRequest_closed_below (n : Z) (b : gobreaker.CircuitBreaker)
    (before : Z) (success : bool) (now : Time) :
  0 ≤ n ≤ 4 → closed_below n b →
  closed_below n (gobreaker.afterRequest b before success now).
Proof.
  intros Hn Hb. apply (currentState_closed_below n b now) in Hb; [|lia].
  unfold gobreaker.afterRequest. destruct (negb _); [done|].
  destruct Hb as (Hconf & Hclosed & Hreq).
  destruct success; unfold gobreaker.onSuccess, gobreaker.onFailure;
    rewrite Hclosed.
  - done.
  - destruct Hconf as (? & ? & ? & Hready). simpl. rewrite Hready.
    unfold utils.ReadyToTrip. simpl.
    destruct (Z.leb_spec 5 (gobreaker.Requests
                              (gobreaker.counts
                                 (gobreaker.currentState b now)))); [lia|].
    simpl. done.
Qed.

(** A closed breaker runs the call; with at most three requests counted it is
    closed afterwards as well. *)
Lemma Execute_closed_below (n : Z) (b : gobreaker.CircuitBreaker)
    (req : St → option error * St) (s : St) :
  0 ≤ n ≤ 4 → closed_below n b →
  ∃ b', gobreaker.Execute time_Now b req s = (fst (req s), b', snd (req s)) ∧
        (n ≤ 3 → closed_below (n + 1) b').
Proof.
  intros Hn Hb. apply (currentState_closed_below n b (time_Now s)) in Hb; [|lia].
  unfold gobreaker.Execute, gobreaker.beforeRequest.
  destruct Hb as (Hconf & Hclosed & Hreq). rewrite Hclosed.
  destruct (req s) as [e s1]. simpl. eexists. split; [reflexivity|].
  intros Hn3. apply afterRequest_closed_below; [lia|].
  split; [done|]. split; [done|]. simpl.
  rewrite wrap_uint32_small; lia.
Qed.

Lemma NewCircuitBreaker_closed_below (gatewayID : string) (now : Time) :
  closed_below 0
    (gobreaker.NewCircuitBreaker (utils.settings gatewayID) now).
Proof. repeat split; simpl; lia. Qed.

(** The same for the table: the entry of the gateway is missing or closed. *)
Lemma ExecuteWithCircuitBreaker_closed_below (n : Z)
    (cb : utils.CircuitBreaker) (gatewayID : string)
    (operation : St → option error * St) (s : St) :
  0 ≤ n ≤ 4 →
  (∀ b, utils.breakers cb !! gatewayID = Some b → closed_below n b) →
  ∃ cb' b',
    utils.ExecuteWithCircuitBreaker time_Now cb gatewayID operation s
    = (fst (operation s), cb', snd (operation s)) ∧
    utils.breakers cb' !! gatewayID = Some b' ∧
    (n ≤ 3 → closed_below (n + 1) b').
Proof.
  intros Hn Hentry. rewrite ExecuteWithCircuitBreaker_single.
  assert (Hb : closed_below n (fst (utils.GetBreaker time_Now cb gatewayID s))).
  { unfold utils.GetBreaker.
    destruct (utils.breakers cb !! gatewayID) as [b|]; simpl; [by apply Hentry|].
    destruct (NewCircuitBreaker_closed_below gatewayID (time_Now s))
      as (? & ? & ?).
    split; [done|]. split; [done|]. lia. }
  destruct (Execute_closed_below n _ operation s Hn Hb) as (b' & -> & Hafter).
  simpl. eexists _, b'. split; [reflexivity|]. simpl.
  by rewrite lookup_insert_eq.
Qed.

Lemma execute_sequence_closed_below
    (requests : list ((St → option error * St) * St)) :
  ∀ (n : Z) (cb : utils.CircuitBreaker) (gatewayID : string),
    0 ≤ n → n + Z.of_nat (length requests) ≤ 5 →
    (∀ b, utils.breakers cb !! gatewayID = Some b → closed_below n b) →
    fst (utils.execute_sequence time_Now cb gatewayID requests)
    = map (λ r, fst r (snd r)) requests ∧
    (n + Z.of_nat (length requests) ≤ 4 →
     ∀ b, utils.breakers
            (snd (utils.execute_sequence time_Now cb gatewayID requests))
            !! gatewayID = Some b →
          gobreaker.state b = gobreaker.StateClosed).
Proof.
  induction requests as [|[operation s] rest IH];
    intros n cb gatewayID Hn Hlen Hentry.
  { simpl. split; [done|]. intros _ b Hb. by destruct (Hentry b Hb) as (_ & ? & _). }
  simpl in Hlen. simpl.
  destruct (ExecuteWithCircuitBreaker_closed_below n cb gatewayID operation s)
    as (cb' & b' & Hrun & Hb' & Hafter); [lia|done|].
  rewrite Hrun.
  destruct rest as [|r rest'].
  { simpl. split; [by destruct (operation s)|].
    intros Hn3 b. rewrite Hb'. intros [= <-].
    by destruct Hafter as (_ & ? & _); [lia|]. }
  destruct (IH (n + 1) cb' gatewayID) as [Hout Hclosed].
  { lia. }
  { simpl in *. lia. }
  { intros b. rewrite Hb'. intros [= <-]. apply Hafter. simpl in Hlen. lia. }
  destruct (utils.execute_sequence time_Now cb' gatewayID (r :: rest'))
    as [outcomes cb''].
  simpl in Hout, Hclosed. simpl. split.
  - rewrite Hout. by destruct (operation s).
  - intros Hn4. apply Hclosed. simpl in *. lia.
Qed.

End breaker_window.

(** X16.  The breaker of a gateway cannot open before its fifth request: of a
    run of at most five calls for a gateway that has no breaker yet, every
    one runs its operation and returns what the operation returned, whatever
    the outcomes and however much time passes; and after at most four calls
    the breaker of the gateway is still closed. *)
Theorem first_requests_reach_operation {St : Type} (time_Now : St → Time)
    (cb : utils.CircuitBreaker) (gatewayID : string)
    (requests : list ((St → option error * St) * St)) :
  utils.breakers cb !! gatewayID = None →
  (length requests ≤ 5)%nat →
  fst (utils.execute_sequence time_Now cb gatewayID requests)
  = map (λ r, fst r (snd r)) requests ∧
  ((length requests ≤ 4)%nat →
   ∀ b, utils.breakers
          (snd (utils.execute_sequence time_Now cb gatewayID requests))
          !! gatewayID = Some b →
        gobreaker.state b = gobreaker.StateClosed).
Proof.
  intros Hnone Hlen.
  destruct (execute_sequence_closed_below time_Now requests 0 cb gatewayID)
    as [Hout Hclosed]; [lia|lia|by rewrite Hnone|].
  split; [exact Hout|]. intros Hlen4. apply Hclosed. lia.
Qed.

Lemma first_requests_reach_operation_witness :
  let x := sample.all_up in
  fst (utils.execute_sequence sample.time_Now utils.NewCircuitBreaker "1"
         [(sample.failing_op, x); (sample.failing_op, x);
          (sample.failing_op, x); (sample.failing_op, x)])
  = [sample.failing_op x; sample.failing_op x; sample.failing_op x;
     sample.failing_op x].
Proof.
  intros x.
  apply (first_requests_reach_operation sample.time_Now
           utils.NewCircuitBreaker "1"
           [(sample.failing_op, x); (sample.failing_op, x);
            (sample.failing_op, x); (sample.failing_op, x)]).
  - vm_compute. reflexivity.
  - simpl. lia.
Defined.

Section breaker_recovery.
Context {St : Type} (time_Now : St → Time).
Import breaker_state.

(** An open breaker whose cool-down has run out turns half-open, with fresh
    counts, at the next look. *)
Lemma currentState_open_expired (b : gobreaker.CircuitBreaker) (now : Time) :
  utils.configured b → gobreaker.state b = gobreaker.StateOpen →
  gobreaker.expiry b < now →
  probing 0 (gobreaker.currentState b now).
Proof.
  intros Hconf Hopen Hexp. unfold gobreaker.currentState. rewrite Hopen.
  destruct (Z.ltb_spec (gobreaker.expiry b) now); [|lia].
  unfold gobreaker.setState. rewrite Hopen. simpl.
  destruct Hconf as (? & ? & ? & ?). by repeat split.
Qed.

Lemma Execute_currentState (b : gobreaker.CircuitBreaker)
    (req : St → option error * St) (s : St) :
  gobreaker.state (gobreaker.currentState b (time_Now s))
  = gobreaker.StateHalfOpen →
  gobreaker.Execute time_Now b req s
  = gobreaker.Execute time_Now (gobreaker.currentState b (time_Now s)) req s.
Proof.
  intros Hhalf.
  assert (Hidem : gobreaker.currentState
                    (gobreaker.currentState b (time_Now s)) (time_Now s)
                  = gobreaker.currentState b (time_Now s)).
  { unfold gobreaker.currentState at 1. by rewrite Hhalf. }
  unfold gobreaker.Execute, gobreaker.beforeRequest. by rewrite Hidem.
Qed.

(** A half-open breaker that has seen [n] successes runs the call; a success
    takes it one step towards closing, a failure opens it again. *)
Lemma Execute_probing (n : Z) (b : gobreaker.CircuitBreaker)
    (req : St → option error * St) (s : St) :
  0 ≤ n ≤ 4 → probing n b →
  ∃ b', gobreaker.Execute time_Now b req s = (fst (req s), b', snd (req s)) ∧
        utils.configured b' ∧
        match fst (req s) with
        | None =>
            if n <? 4 then probing (n + 1) b'
            else gobreaker.state b' = gobreaker.StateClosed ∧
                 gobreaker.counts b' = gobreaker.Counts_clear
        | Some _ =>
            gobreaker.state b' = gobreaker.StateOpen ∧
            gobreaker.expiry b' = time_Now (snd (req s)) + 60 * utils.Second
        end.
Proof.
  intros Hn (Hconf & Hhalf & Hreq & Hsucc).
  pose proof Hconf as (Hmax & Hint & Htimeout & Hready).
  assert (Hcur : ∀ b0 now, gobreaker.state b0 = gobreaker.StateHalfOpen →
                           gobreaker.currentState b0 now = b0).
  { intros b0 now Hb0. unfold gobreaker.currentState. by rewrite Hb0. }
  unfold gobreaker.Execute, gobreaker.beforeRequest.
  rewrite (Hcur b _ Hhalf), Hhalf, Hmax, Hreq.
  destruct (Z.leb_spec 5 n); [lia|].
  destruct (req s) as [e s1]. cbn [fst snd]. eexists. split; [reflexivity|].
  split.
  { apply afterRequest_configured. by repeat split. }
  unfold gobreaker.afterRequest. rewrite Hcur by done. simpl.
  rewrite Z.eqb_refl. simpl.
  destruct e as [e|]; simpl.
  - unfold gobreaker.onFailure. simpl. rewrite Hhalf.
    unfold gobreaker.setState. simpl. rewrite Hhalf. simpl.
    by rewrite Htimeout.
  - unfold gobreaker.onSuccess. simpl. rewrite Hhalf. simpl.
    rewrite Hmax, Hsucc, wrap_uint32_small by lia.
    destruct (Z.ltb_spec n 4).
    + destruct (Z.leb_spec 5 (n + 1)); [lia|].
      split; [by repeat split|]. simpl.
      rewrite Hreq, Hsucc, !wrap_uint32_small by lia. done.
    + destruct (Z.leb_spec 5 (n + 1)); [|lia].
      unfold gobreaker.setState. simpl. rewrite Hhalf. simpl. done.
Qed.

End breaker_recovery.

Section breaker_recovery_table.
Context {St : Type} (time_Now : St → Time).
Import breaker_state.

Lemma ExecuteWithCircuitBreaker_probing (n : Z) (cb : utils.CircuitBreaker)
    (gatewayID : string) (b : gobreaker.CircuitBreaker)
    (operation : St → option error * St) (s : St) :
  0 ≤ n ≤ 4 → utils.breakers cb !! gatewayID = Some b →
  admits n b (Some (time_Now s)) →
  ∃ cb' b',
    utils.ExecuteWithCircuitBreaker time_Now cb gatewayID operation s
    = (fst (operation s), cb', snd (operation s)) ∧
    utils.breakers cb' !! gatewayID = Some b' ∧
    utils.configured b' ∧
    match fst (operation s) with
    | None =>
        if n <? 4 then probing (n + 1) b'
        else gobreaker.state b' = gobreaker.StateClosed ∧
             gobreaker.counts b' = gobreaker.Counts_clear
    | Some _ =>
        gobreaker.state b' = gobreaker.StateOpen ∧
        gobreaker.expiry b'
        = time_Now (snd (operation s)) + 60 * utils.Second
    end.
Proof.
  intros Hn Hb Hstart. rewrite ExecuteWithCircuitBreaker_single.
  unfold utils.GetBreaker. rewrite Hb. cbn [fst].
  assert (Hrun : ∃ b0, probing n b0 ∧
                   gobreaker.Execute time_Now b operation s
                   = gobreaker.Execute time_Now b0 operation s).
  { destruct Hstart as [Hp|(-> & Hconf & Hopen & Hexp)].
    - by exists b.
    - pose proof (currentState_open_expired b (time_Now s) Hconf Hopen
                    (Hexp _ eq_refl)) as Hp.
      eexists. split; [exact Hp|].
      apply Execute_currentState. by destruct Hp as (_ & ? & _). }
  destruct Hrun as (b0 & Hp & ->).
  destruct (Execute_probing time_Now n b0 operation s Hn Hp)
    as (b' & -> & Hconf' & Hafter).
  eexists _, b'. split; [reflexivity|]. simpl.
  by rewrite lookup_insert_eq.
Qed.

Lemma execute_sequence_probing (gatewayID : string)
    (requests : list ((St → option error * St) * St)) :
  ∀ (n : Z) (cb : utils.CircuitBreaker) (b : gobreaker.CircuitBreaker),
    0 ≤ n → n + Z.of_nat (length requests) ≤ 5 →
    utils.breakers cb !! gatewayID = Some b →
    admits n b (option_map (λ r, time_Now (snd r)) (head requests)) →
    Forall (λ r, fst (fst r (snd r)) = None) requests →
    fst (utils.execute_sequence time_Now cb gatewayID requests)
    = map (λ r, fst r (snd r)) requests ∧
    ∃ b',
      utils.breakers
        (snd (utils.execute_sequence time_Now cb gatewayID requests))
        !! gatewayID = Some b' ∧
      match requests with
      | [] => b' = b
      | _ :: _ =>
          if n + Z.of_nat (length requests) <? 5
          then probing (n + Z.of_nat (length requests)) b'
          else gobreaker.state b' = gobreaker.StateClosed ∧
               gobreaker.counts b' = gobreaker.Counts_clear
      end.
Proof.
  induction requests as [|[operation s] rest IH];
    intros n cb b Hn Hlen Hb Hstart Hall.
  { simpl. split; [done|]. by exists b. }
  apply Forall_cons in Hall as [Hok Hall]. simpl in Hok, Hstart.
  cbn [length] in Hlen.
  destruct (ExecuteWithCircuitBreaker_probing n cb gatewayID b operation s)
    as (cb' & b' & Hrun & Hb' & Hconf' & Hafter); [lia|done|done|].
  rewrite Hok in Hafter. cbn [utils.execute_sequence]. rewrite Hrun.
  destruct rest as [|r rest'].
  { cbn [utils.execute_sequence map fst snd length]. split.
    - by destruct (operation s).
    - exists b'. split; [done|].
      replace (n + Z.of_nat 1) with (n + 1) by lia.
      destruct (Z.ltb_spec n 4), (Z.ltb_spec (n + 1) 5); try lia; done. }
  destruct (Z.ltb_spec n 4) as [Hn4|]; [|cbn [length] in Hlen; lia].
  destruct (IH (n + 1) cb' b') as [Hout (b'' & Hb'' & Hfinal)];
    [lia|cbn [length] in *; lia|done|by left|done|].
  destruct (utils.execute_sequence time_Now cb' gatewayID (r :: rest'))
    as [outcomes cb''].
  cbn [fst snd] in *. split.
  - rewrite Hout. cbn [map fst snd]. by destruct (operation s).
  - exists b''. split; [done|].
    replace (n + Z.of_nat (length ((operation, s) :: r :: rest')))
      with (n + 1 + Z.of_nat (length (r :: rest')))
      by (cbn [length]; lia).
    exact Hfinal.
Qed.

Lemma execute_sequence_app (cb : utils.CircuitBreaker) (gatewayID : string)
    (l1 l2 : list ((St → option error * St) * St)) :
  utils.execute_sequence time_Now cb gatewayID (l1 ++ l2)
  = (fst (utils.execute_sequence time_Now cb gatewayID l1)
     ++ fst (utils.execute_sequence time_Now
               (snd (utils.execute_sequence time_Now cb gatewayID l1))
               gatewayID l2),
     snd (utils.execute_sequence time_Now
            (snd (utils.execute_sequence time_Now cb gatewayID l1))
            gatewayID l2)).
Proof.
  revert cb. induction l1 as [|[operation s] l1 IH]; intros cb; simpl.
  { by destruct (utils.execute_sequence _ _ _ l2). }
  destruct (utils.ExecuteWithCircuitBreaker _ _ _ _ _) as [[err cb1] s1].
  rewrite IH.
  by destruct (utils.execute_sequence time_Now cb1 gatewayID l1).
Qed.

End breaker_recovery_table.

(** X17.  Recovery goes through five successful probes.  When the breaker of
    a gateway is open and its cool-down of sixty seconds is over at the first
    of a run of up to five calls that all succeed, every call of the run is
    let through, the breaker is half-open while fewer than five have
    succeeded, and with the fifth success it is closed again with fresh
    counts. *)
Theorem breaker_closes_after_five_successes {St : Type}
    (time_Now : St → Time) (cb : utils.CircuitBreaker) (gatewayID : string)
    (b : gobreaker.CircuitBreaker)
    (requests : list ((St → option error * St) * St)) :
  utils.breakers cb !! gatewayID = Some b →
  utils.configured b →
  gobreaker.state b = gobreaker.StateOpen →
  (∀ r, head requests = Some r → gobreaker.expiry b < time_Now (snd r)) →
  Forall (λ r, fst (fst r (snd r)) = None) requests →
  (1 ≤ length requests ≤ 5)%nat →
  let out := utils.execute_sequence time_Now cb gatewayID requests in
  fst out = map (λ r, fst r (snd r)) requests ∧
  ∃ b',
    utils.breakers (snd out) !! gatewayID = Some b' ∧
    if (length requests =? 5)%nat
    then gobreaker.state b' = gobreaker.StateClosed ∧
         gobreaker.counts b' = gobreaker.Counts_clear
    else gobreaker.state b' = gobreaker.StateHalfOpen ∧
         gobreaker.ConsecutiveSuccesses (gobreaker.counts b')
         = Z.of_nat (length requests).
Proof.
  intros Hb Hconf Hopen Hexp Hall Hlen out. subst out.
  destruct (execute_sequence_probing time_Now gatewayID requests 0 cb b)
    as [Hout (b' & Hb' & Hfinal)]; [lia|lia|done| |done|].
  { right. split_and!; [done..|].
    intros t Ht. destruct requests as [|r rest]; [done|].
    injection Ht as <-. by apply Hexp. }
  split; [exact Hout|]. exists b'. split; [exact Hb'|].
  destruct requests as [|r rest]; [simpl in Hlen; lia|].
  rewrite Z.add_0_l in Hfinal.
  destruct (Nat.eqb_spec (length (r :: rest)) 5) as [Heq|Hne].
  - destruct (Z.ltb_spec (Z.of_nat (length (r :: rest))) 5); [lia|done].
  - destruct (Z.ltb_spec (Z.of_nat (length (r :: rest))) 5); [|lia].
    by destruct Hfinal as (_ & ? & _ & ?).
Qed.

(** X18.  One failed probe starts the cool-down again.  When the breaker of a
    gateway is open and its cool-down is over, a failing call that comes
    first or after up to four successful ones is let through, returns the
    error of its operation, and leaves the breaker open until sixty seconds
    after the moment it ended, whatever share of the calls has failed. *)
Theorem failed_probe_reopens {St : Type}
    (time_Now : St → Time) (cb : utils.CircuitBreaker) (gatewayID : string)
    (b : gobreaker.CircuitBreaker)
    (successes : list ((St → option error * St) * St))
    (operation : St → option error * St) (s : St) :
  utils.breakers cb !! gatewayID = Some b →
  utils.configured b →
  gobreaker.state b = gobreaker.StateOpen →
  (∀ r, head (successes ++ [(operation, s)]) = Some r →
        gobreaker.expiry b < time_Now (snd r)) →
  Forall (λ r, fst (fst r (snd r)) = None) successes →
  (length successes ≤ 4)%nat →
  fst (operation s) ≠ None →
  let out := utils.execute_sequence time_Now cb gatewayID
               (successes ++ [(operation, s)]) in
  fst out = map (λ r, fst r (snd r)) (successes ++ [(operation, s)]) ∧
  ∃ b',
    utils.breakers (snd out) !! gatewayID = Some b' ∧
    gobreaker.state b' = gobreaker.StateOpen ∧
    gobreaker.expiry b' = time_Now (snd (operation s)) + 60 * utils.Second.
Proof.
  intros Hb Hconf Hopen Hexp Hall Hlen Hfail out. subst out.
  rewrite execute_sequence_app, map_app. cbn [fst snd].
  destruct (execute_sequence_probing time_Now gatewayID successes 0 cb b)
    as [Hout (b1 & Hb1 & Hmid)]; [lia|lia|done| |done|].
  { right. split_and!; [done..|].
    intros t Ht. destruct successes as [|r rest]; [done|].
    injection Ht as <-. by apply Hexp. }
  rewrite Hout.
  destruct (ExecuteWithCircuitBreaker_probing time_Now
              (Z.of_nat (length successes))
              (snd (utils.execute_sequence time_Now cb gatewayID successes))
              gatewayID b1 operation s)
    as (cb' & b' & Hrun & Hb' & _ & Hafter); [lia|done| |].
  { destruct successes as [|r rest].
    - subst b1. right. split_and!; [done..|].
      intros t [= <-]. by apply (Hexp (operation, s)).
    - left. rewrite Z.add_0_l in Hmid.
      destruct (Z.ltb_spec (Z.of_nat (length (r :: rest))) 5); [done|lia]. }
  cbn [utils.execute_sequence]. rewrite Hrun. cbn [fst snd map].
  split; [by destruct (operation s)|].
  exists b'. split; [exact Hb'|].
  by destruct (fst (operation s)).
Qed.

Lemma breaker_closes_after_five_successes_witness :
  let cb := snd (utils.execute_sequence sample.time_Now
                   utils.NewCircuitBreaker "1"
                   (replicate 5 (sample.failing_op, sample.all_up))) in
  let later := sample.at_time sample.all_up (1061 * utils.Second) in
  ∃ b',
    utils.breakers
      (snd (utils.execute_sequence sample.time_Now cb "1"
              (replicate 5 (sample.passing_op, later)))) !! "1" = Some b' ∧
    gobreaker.state b' = gobreaker.StateClosed ∧
    gobreaker.counts b' = gobreaker.Counts_clear.
Proof.
  intros cb later.
  assert (Hfacts : option_map
                     (λ b, (gobreaker.maxRequests b, gobreaker.interval b,
                            gobreaker.timeout b, gobreaker.readyToTrip b,
                            gobreaker.state b, gobreaker.expiry b))
                     (utils.breakers cb !! "1")
                   = Some (5, 30 * utils.Second, 60 * utils.Second,
                           utils.ReadyToTrip, gobreaker.StateOpen,
                           1060500 * utils.Millisecond))
    by (vm_compute; reflexivity).
  clearbody cb.
  destruct (utils.breakers cb !! "1") as [b|] eqn:Hb; [|discriminate].
  injection Hfacts as Hmax Hint Htimeout Hready Hopen Hexpiry.
  destruct (breaker_closes_after_five_successes sample.time_Now cb "1" b
              (replicate 5 (sample.passing_op, later)))
    as [_ (b' & Hb' & Hfinal)].
  - exact Hb.
  - by repeat split.
  - exact Hopen.
  - intros r [= <-]. rewrite Hexpiry. vm_compute. reflexivity.
  - repeat constructor.
  - simpl. lia.
  - exists b'. split; [exact Hb'|]. exact Hfinal.
Defined.

Lemma failed_probe_reopens_witness :
  let cb := snd (utils.execute_sequence sample.time_Now
                   utils.NewCircuitBreaker "1"
                   (replicate 5 (sample.failing_op, sample.all_up))) in
  let later := sample.at_time sample.all_up (1061 * utils.Second) in
  ∃ b',
    utils.breakers
      (snd (utils.execute_sequence sample.time_Now cb "1"
              (replicate 4 (sample.passing_op, later)
               ++ [(sample.failing_op, later)]))) !! "1" = Some b' ∧
    gobreaker.state b' = gobreaker.StateOpen ∧
    gobreaker.expiry b' = 1121500 * utils.Millisecond.
Proof.
  intros cb later.
  assert (Hfacts : option_map
                     (λ b, (gobreaker.maxRequests b, gobreaker.interval b,
                            gobreaker.timeout b, gobreaker.readyToTrip b,
                            gobreaker.state b, gobreaker.expiry b))
                     (utils.breakers cb !! "1")
                   = Some (5, 30 * utils.Second, 60 * utils.Second,
                           utils.ReadyToTrip, gobreaker.StateOpen,
                           1060500 * utils.Millisecond))
    by (vm_compute; reflexivity).
  clearbody cb.
  destruct (utils.breakers cb !! "1") as [b|] eqn:Hb; [|discriminate].
  injection Hfacts as Hmax Hint Htimeout Hready Hopen Hexpiry.
  destruct (failed_probe_reopens sample.time_Now cb "1" b
              (replicate 4 (sample.passing_op, later))
              sample.failing_op later)
    as [_ (b' & Hb' & Hstate & Hexp')].
  - exact Hb.
  - by repeat split.
  - exact Hopen.
  - intros r [= <-]. rewrite Hexpiry. vm_compute. reflexivity.
  - repeat constructor.
  - simpl. lia.
  - discriminate.
  - exists b'. split; [exact Hb'|]. split; [exact Hstate|].
    rewrite Hexp'. vm_compute. reflexivity.
Defined.
